(** * Watering agent: the decision-determination pipeline of [zalevani.py]

    A shallow embedding of the fact deriver ([days_since],
    [precip_sum_next_hours]), of the facts summary built by [build_messages],
    of the reply validation at the end of [call_openai] and of
    [consistency_guard], followed by the properties established about them.

    Conventions.
    - A Python [float] is an IEEE 754 binary64 value: Rocq's primitive
      [float], with its comparisons and its addition.
    - A Python [int] is a [Z].
    - A point on a clock is a [Z]: microseconds since 1970-01-01T00:00:00,
      either on the UTC axis or on a wall clock.  A [datetime] holds the
      years 1 to 9999 only: arithmetic and zone conversion that would
      leave this range raise [OverflowError].
    - A raised exception is the [Raise] case of [outcome]; [try]/[except]
      is [try_except].
    - [DecisionResponse] objects are mutable and passed by reference: they
      live in a [heap] and functions that touch them run in the monad [M]. *)

From Stdlib Require Import ZArith List String Ascii Floats Lia Bool DecimalString.
From stdpp Require Import gmap strings.

Set Warnings "-inexact-float".

Open Scope Z_scope.

(** ** Exceptions and outcomes *)

(** The exception classes the modelled code can meet; all of them derive
    from Python's [Exception]. *)
Inductive exn : Type :=
| ValueError
| OverflowError
| OSError
| TypeError
| AttributeError
| JSONDecodeError
| ValidationError.

Inductive outcome (A : Type) : Type :=
| Ok (a : A)
| Raise (e : exn).

Arguments Ok {A} a.
Arguments Raise {A} e.

Definition obind {A B : Type} (o : outcome A) (k : A -> outcome B) : outcome B :=
  match o with
  | Ok a => k a
  | Raise e => Raise e
  end.

(** [try: body except Exception: handler]. *)
Definition try_except {A : Type} (body : outcome A) (handler : exn -> outcome A) : outcome A :=
  match body with
  | Ok a => Ok a
  | Raise e => handler e
  end.

Definition raises {A : Type} (o : outcome A) : Prop :=
  exists e, o = Raise e.

Definition returns {A : Type} (o : outcome A) : Prop :=
  exists a, o = Ok a.

Notation "'let*' x ':=' c1 'in' c2" := (obind c1 (fun x => c2))
  (at level 10, x pattern, c1 at level 100, c2 at level 200).

(** ** Python built-ins on numbers and strings *)

Module Py.

(** [str(n)] for an [int]. *)
Definition str_int (n : Z) : string :=
  NilZero.string_of_int (Z.to_int n).

(** [x or y] where [x] is an [Optional[int]]: [None] and [0] are falsy. *)
Definition or_int (x : option Z) (y : Z) : Z :=
  match x with
  | Some n => if n =? 0 then y else n
  | None => y
  end.

(** [s.replace(old, new)] for a one-character [old]. *)
Fixpoint replace_char (old : ascii) (new : string) (s : string) : string :=
  match s with
  | EmptyString => EmptyString
  | String c rest =>
      if Ascii.eqb c old
      then new +:+ replace_char old new rest
      else String c (replace_char old new rest)
  end.

(** Comparisons of floats: [x >= y] and [x <= y] are false as soon as one
    side is NaN. *)
Definition ge (x y : float) : bool := PrimFloat.leb y x.
Definition le (x y : float) : bool := PrimFloat.leb x y.
Definition lt (x y : float) : bool := PrimFloat.ltb x y.

(** The integer nearest to [m / 2^k], ties to the even one ([0 <= m],
    [0 < k]). *)
Definition div2k_half_even (m k : Z) : Z :=
  let q := m / 2 ^ k in
  let r := m mod 2 ^ k in
  let half := 2 ^ (k - 1) in
  if r <? half then q
  else if half <? r then q + 1
  else if Z.even q then q else q + 1.

(** The integer nearest to [m * 2^e], ties to even. *)
Definition nearest_int (m e : Z) : Z :=
  if 0 <=? e then m * 2 ^ e else div2k_half_even m (- e).

(** [m * 2^e] truncated toward zero, for [0 <= m]. *)
Definition trunc_int (m e : Z) : Z :=
  if 0 <=? e then m * 2 ^ e else m / 2 ^ (- e).

(** [int(x)] for a float: truncation toward zero; an infinity raises
    [OverflowError], NaN raises [ValueError]. *)
Definition int_of_float (x : float) : outcome Z :=
  match Prim2SF x with
  | S754_zero _ => Ok 0
  | S754_infinity _ => Raise OverflowError
  | S754_nan => Raise ValueError
  | S754_finite s m e =>
      let v := trunc_int (Z.pos m) e in
      Ok (if s then - v else v)
  end.

(** [format(x, ".0f")]: the exact value rounded to an integer, ties to
    even, with the sign of [x] (also in front of a zero). *)
Definition format_0f (x : float) : string :=
  match Prim2SF x with
  | S754_zero s => if s then "-0" else "0"
  | S754_infinity s => if s then "-inf" else "inf"
  | S754_nan => "nan"
  | S754_finite s m e =>
      let n := str_int (nearest_int (Z.pos m) e) in
      if s then "-" +:+ n else n
  end.

(** [round(x, 1)]: the exact value rounded to one decimal, ties to even,
    and that decimal converted back to the nearest float.  From [2^53/10]
    on, the float is its own nearest neighbour. *)
Definition round1 (x : float) : float :=
  match Prim2SF x with
  | S754_finite s m e =>
      let q := nearest_int (10 * Z.pos m) e in
      if 2 ^ 53 <=? q then x
      else
        let r := (PrimFloat.of_uint63 (Uint63.of_Z q) / 10)%float in
        if s then (- r)%float else r
  | _ => x
  end.

End Py.

(** ** Data model (the pydantic classes) *)

(** A [datetime] value: naive (wall-clock fields only) or aware (a point on
    the UTC axis; the zone it was written in plays no role once converted). *)
Inductive datetime : Type :=
| Naive (wall : Z)
| Aware (utc : Z).

Record WeatherNow : Type := {
  temp_c : float;
  humidity_pct : option float;
  precipitation_mm : option float;
  cloudcover_pct : option float;
  description : option string
}.

Record WeatherForecastItem : Type := {
  time : datetime;
  precip_prob_pct : option float;
  expected_precip_mm : option float;
  item_temp_c : option float;
  item_humidity_pct : option float
}.

Record WeatherForecast : Type := {
  items : list WeatherForecastItem
}.

Record PlantContext : Type := {
  species : option string;
  notes : option string
}.

Record DecisionRequest : Type := {
  image_url : string;
  last_watering_date : option string;
  last_watering_amount_ml : option Z;
  weather_now : WeatherNow;
  weather_forecast : WeatherForecast;
  plant : option PlantContext
}.

Record DecisionResponse : Type := {
  zalevat : bool;
  oduvodneni : string
}.

(** ** The date-time library behind the helpers

    [fromisoformat] is [datetime.fromisoformat] (it raises on a string it
    cannot parse); [system_zone w] is the UTC instant of the naive wall
    clock [w] in the zone of the machine, which is what [astimezone]
    presumes for a naive value (it may raise); [LOCAL_TZ u] is the offset
    of Europe/Prague from UTC, in microseconds, at the UTC instant [u]. *)
Class Runtime : Type := {
  fromisoformat : string -> outcome datetime;
  system_zone : Z -> outcome Z;
  LOCAL_TZ : Z -> Z
}.

Definition us_per_hour : Z := 3600000000.
Definition us_per_day : Z := 86400000000.

(** The first and the last microsecond a [datetime] can hold:
    0001-01-01T00:00:00 and 9999-12-31T23:59:59.999999. *)
Definition datetime_min : Z := -719162 * us_per_day.
Definition datetime_max : Z := 2932897 * us_per_day - 1.

Definition in_range (w : Z) : bool :=
  (datetime_min <=? w) && (w <=? datetime_max).

(** A [datetime] built from the clock value [w]: out of range, it is an
    [OverflowError]. *)
Definition checked (w : Z) : outcome Z :=
  if in_range w then Ok w else Raise OverflowError.

(** [LOCAL_TZ.fromutc]: the wall clock of Prague at the UTC instant [u]. *)
Definition fromutc_LOCAL `{Runtime} (u : Z) : outcome Z :=
  checked (u + LOCAL_TZ u).

(** [dt.astimezone(LOCAL_TZ)], as the wall clock it shows: the value is
    first brought to UTC, then to the zone, and either step raises when it
    leaves the range. *)
Definition astimezone_LOCAL `{Runtime} (dt : datetime) : outcome Z :=
  match dt with
  | Aware u => let* u' := checked u in fromutc_LOCAL u'
  | Naive w => let* u := system_zone w in fromutc_LOCAL u
  end.

(** [timedelta(hours=hours)], in microseconds: its days must stay within
    999999999 in magnitude. *)
Definition timedelta_hours (hours : Z) : outcome Z :=
  let us := hours * us_per_hour in
  if (-999999999 <=? us / us_per_day) && (us / us_per_day <=? 999999999)
  then Ok us else Raise OverflowError.

(** [dt.date()], as a day number. *)
Definition date (wall : Z) : Z := wall / us_per_day.

(** ** Fact deriver *)

(** [days_since]; [now] is the reading of [datetime.now(LOCAL_TZ)]. *)
Definition days_since `{Runtime} (now : Z) (date_str : option string) : outcome (option Z) :=
  match date_str with
  | None => Ok None
  | Some EmptyString => Ok None
  | Some s =>
      try_except
        (let* parsed := fromisoformat (Py.replace_char "Z" "+00:00" s) in
         let* dt := astimezone_LOCAL parsed in
         Ok (Some (date now - date dt)))
        (fun _ => Ok None)
  end.

(** [end = now + timedelta(hours=hours)] (line 91). *)
Definition window_end (now hours : Z) : outcome Z :=
  let* delta := timedelta_hours hours in
  checked (now + delta).

(** The wall clock of a forecast item in [LOCAL_TZ] (lines 94 to 98): a
    naive timestamp gets the zone attached to its fields, an aware one is
    converted, which may raise. *)
Definition local_time `{Runtime} (t : datetime) : outcome Z :=
  match t with
  | Naive w => Ok w
  | Aware _ => astimezone_LOCAL t
  end.

(** One turn of the loop of [precip_sum_next_hours].  In [now <= t <= end]
    the three values carry the same zone object, so Python compares their
    wall-clock fields. *)
Definition rain_step `{Runtime} (now end_ : Z) (total : float) (it : WeatherForecastItem) : outcome float :=
  let* t := local_time (time it) in
  Ok (if (now <=? t) && (t <=? end_) then
        match expected_precip_mm it with
        | Some p => (total + p)%float
        | None => total
        end
      else total).

(** The loop, from the running total [total]; it stops at the first item
    whose conversion raises. *)
Fixpoint rain_loop `{Runtime} (now end_ : Z) (l : list WeatherForecastItem) (total : float) : outcome float :=
  match l with
  | [] => Ok total
  | it :: rest =>
      let* total' := rain_step now end_ total it in
      rain_loop now end_ rest total'
  end.

(** [precip_sum_next_hours]; [now] is the reading of
    [datetime.now(LOCAL_TZ)]. *)
Definition precip_sum_next_hours `{Runtime} (now : Z) (forecast : WeatherForecast) (hours : Z) : outcome float :=
  let* end_ := window_end now hours in
  rain_loop now end_ (items forecast) 0%float.

(** ** Objects passed by reference *)

Definition loc : Type := positive.

Abbreviation heap := (gmap positive DecisionResponse).

(** Computations over the heap that may raise; the heap reached when the
    exception is raised is kept. *)
Definition M (A : Type) : Type := heap -> outcome A * heap.

Definition ret {A : Type} (a : A) : M A := fun h => (Ok a, h).

Definition bind {A B : Type} (c : M A) (k : A -> M B) : M B :=
  fun h =>
    match c h with
    | (Ok a, h') => k a h'
    | (Raise e, h') => (Raise e, h')
    end.

Definition lift {A : Type} (o : outcome A) : M A := fun h => (o, h).

Notation "'let!' x ':=' c1 'in' c2" := (bind c1 (fun x => c2))
  (at level 10, x pattern, c1 at level 100, c2 at level 200).

(** [res.zalevat] *)
Definition get_zalevat (res : loc) : M bool :=
  fun h =>
    match h !! res with
    | Some o => (Ok (zalevat o), h)
    | None => (Raise AttributeError, h)
    end.

(** [res.zalevat = b] *)
Definition set_zalevat (res : loc) (b : bool) : M unit :=
  fun h =>
    match h !! res with
    | Some o => (Ok tt, <[res := {| zalevat := b; oduvodneni := oduvodneni o |}]> h)
    | None => (Raise AttributeError, h)
    end.

(** [res.oduvodneni = s] *)
Definition set_oduvodneni (res : loc) (s : string) : M unit :=
  fun h =>
    match h !! res with
    | Some o => (Ok tt, <[res := {| zalevat := zalevat o; oduvodneni := s |}]> h)
    | None => (Raise AttributeError, h)
    end.

(** ** Consistency guard *)

(** The four locals of [consistency_guard]: [dsl], [temp], [rh], [rain12]. *)
Record GuardFacts : Type := {
  dsl : Z;
  temp : float;
  rh : float;
  rain12 : float
}.

(** Lines 188 to 191; [now1] is the clock reading taken inside
    [days_since], [now2] the one taken inside [precip_sum_next_hours]. *)
Definition guard_facts `{Runtime} (now1 now2 : Z) (req : DecisionRequest) : outcome GuardFacts :=
  let* d := days_since now1 (last_watering_date req) in
  let* rain := precip_sum_next_hours now2 (weather_forecast req) 12 in
  Ok {| dsl := Py.or_int d 999;
        temp := temp_c (weather_now req);
        rh := match humidity_pct (weather_now req) with
              | Some v => v
              | None => 100%float
              end;
        rain12 := rain |}.

Definition hot (f : GuardFacts) : bool := Py.ge (temp f) 30%float.
Definition dry (f : GuardFacts) : bool := Py.le (rh f) 40%float.
Definition soon_rain (f : GuardFacts) : bool := Py.ge (rain12 f) 2%float.

(** The f-string of line 201, given the value [irh] of [int(rh)]. *)
Definition override_text (days : Z) (t : float) (irh : Z) : string :=
  Py.str_int days +:+ " d od zálivky, " +:+ Py.format_0f t +:+ "°C/"
  +:+ Py.str_int irh +:+ "% RH, déšť <2 mm/12h → raději zalij.".

(** Its evaluation: [int(rh)] is the only part that can raise. *)
Definition guard_text (f : GuardFacts) : outcome string :=
  let* irh := Py.int_of_float (rh f) in
  Ok (override_text (dsl f) (temp f) irh).

(** [consistency_guard(req, res)]: [res] is a reference, and the reference
    given is the one returned. *)
Definition consistency_guard `{Runtime} (now1 now2 : Z) (req : DecisionRequest) (res : loc) : M loc :=
  let! f := lift (guard_facts now1 now2 req) in
  if hot f && dry f && (1 <=? dsl f) && negb (soon_rain f) then
    let! z := get_zalevat res in
    if negb z then
      let! _ := set_zalevat res true in
      let! txt := lift (guard_text f) in
      let! _ := set_oduvodneni res txt in
      ret res
    else ret res
  else ret res.

(** ** Request builder: the facts summary *)

(** The dictionary [facts] of [build_messages]. *)
Record Facts : Type := {
  days_since_last_watering : option Z;
  facts_last_watering_amount_ml : option Z;
  rain_next_12h_mm : float;
  now_temp_c : float;
  now_rh_pct : option float
}.

(** Lines 108 to 116 of [build_messages]; [now1] and [now2] as in
    [guard_facts]. *)
Definition build_messages_facts `{Runtime} (now1 now2 : Z) (payload : DecisionRequest) : outcome Facts :=
  let* d := days_since now1 (last_watering_date payload) in
  let* rain := precip_sum_next_hours now2 (weather_forecast payload) 12 in
  Ok {| days_since_last_watering := d;
        facts_last_watering_amount_ml := last_watering_amount_ml payload;
        rain_next_12h_mm := Py.round1 rain;
        now_temp_c := temp_c (weather_now payload);
        now_rh_pct := humidity_pct (weather_now payload) |}.

(** ** Inference adapter: validation of the reply *)

(** What [json.loads] returns. *)
#[warnings="-register-all"]
Inductive json : Type :=
| JNull
| JBool (b : bool)
| JInt (n : Z)
| JFloat (x : float)
| JStr (s : string)
| JList (l : list json)
| JObj (fields : gmap string json).

(** The libraries behind the validation: [json_loads] is [json.loads] (it
    raises on a text that is not JSON); [validate_bool] and [validate_str]
    are pydantic's validators of a [bool] field and of a [str] field,
    [None] when the value is refused.  A boolean is accepted as a [bool]
    and a string as a [str], each unchanged. *)
Class Validation : Type := {
  json_loads : string -> outcome json;
  validate_bool : json -> option bool;
  validate_str : json -> option string;
  validate_bool_JBool : forall b, validate_bool (JBool b) = Some b;
  validate_str_JStr : forall s, validate_str (JStr s) = Some s
}.

(** [DecisionResponse] built from the keyword arguments [data]:
    [data] must be a mapping; both fields are
    required and have no default; keys that are not fields are ignored. *)
Definition DecisionResponse_init `{Validation} (data : json) : outcome DecisionResponse :=
  match data with
  | JObj kw =>
      match kw !! "zalevat", kw !! "oduvodneni" with
      | Some z, Some o =>
          match validate_bool z, validate_str o with
          | Some b, Some s => Ok {| zalevat := b; oduvodneni := s |}
          | _, _ => Raise ValidationError
          end
      | _, _ => Raise ValidationError
      end
  | _ => Raise TypeError
  end.

(** Lines 172 and 173 of [call_openai]; [content] is the text of the reply,
    [resp.choices[0].message.content]. *)
Definition call_openai `{Validation} (content : string) : outcome DecisionResponse :=
  let* data := json_loads content in
  DecisionResponse_init data.

(** The schema as the specification words it: a boolean decision field and
    a justification that is present and not empty. *)
Definition matches_schema (data : json) : Prop :=
  exists kw b s,
    data = JObj kw /\ kw !! "zalevat" = Some (JBool b) /\
    kw !! "oduvodneni" = Some (JStr s) /\ s <> "".

(** ** Reference formulations used in the statements *)

(** The sum of a list of floats, from the left, starting at [0.0]. *)
Definition float_sum (l : list float) : float :=
  fold_left (fun total p => (total + p)%float) l 0%float.

(** An item whose timestamp has a wall clock in [LOCAL_TZ]. *)
Definition convertible `{Runtime} (it : WeatherForecastItem) : Prop :=
  returns (local_time (time it)).

(** The item's wall clock lies in the closed window from [now] to [end_]. *)
Definition in_window `{Runtime} (now end_ : Z) (it : WeatherForecastItem) : bool :=
  match local_time (time it) with
  | Ok t => (now <=? t) && (t <=? end_)
  | Raise _ => false
  end.

(** What an item adds to a running total. *)
Definition rain_add `{Runtime} (now end_ : Z) (total : float) (it : WeatherForecastItem) : float :=
  if in_window now end_ it then
    match expected_precip_mm it with
    | Some p => (total + p)%float
    | None => total
    end
  else total.

(** The rain expected in the closed window from [now] to [end_]: the
    values of the items inside it that carry one, summed. *)
Definition window_sum `{Runtime} (now end_ : Z) (forecast : WeatherForecast) : float :=
  float_sum (omap expected_precip_mm (List.filter (in_window now end_) (items forecast))).

(** A float that is [>= 0.0] (so not NaN; [-0.0] and [+inf] are). *)
Definition nonneg (x : float) : Prop := Py.le 0%float x = true.

(** The weather part of the condition of line 199. *)
Definition fires (f : GuardFacts) : bool :=
  hot f && dry f && (1 <=? dsl f) && negb (soon_rain f).

(** The state of the candidate after an override. *)
Definition overridden (text : string) : DecisionResponse :=
  {| zalevat := true; oduvodneni := text |}.

(** ** A concrete runtime for worked examples

    A summer day in Prague: the zone is two hours ahead of UTC, the machine
    runs in the same zone, and [fromisoformat] is given on its date-only
    inputs [YYYY-MM-DD] (any other text is refused here). *)
Module Summer.

Definition digit (c : ascii) : option Z :=
  let n := Z.of_nat (nat_of_ascii c) in
  if (48 <=? n) && (n <=? 57) then Some (n - 48) else None.

Fixpoint number (acc : Z) (s : string) : option Z :=
  match s with
  | EmptyString => Some acc
  | String c rest =>
      match digit c with
      | Some v => number (10 * acc + v) rest
      | None => None
      end
  end.

Definition is_leap (y : Z) : bool :=
  ((y mod 4 =? 0) && negb (y mod 100 =? 0)) || (y mod 400 =? 0).

Definition days_in_month (y m : Z) : Z :=
  if m =? 2 then (if is_leap y then 29 else 28)
  else if (m =? 4) || (m =? 6) || (m =? 9) || (m =? 11) then 30
  else 31.

(** Days from 1970-01-01 to the civil date [y]-[m]-[d]. *)
Definition days_from_civil (y m d : Z) : Z :=
  let y' := if m <=? 2 then y - 1 else y in
  let era := y' / 400 in
  let yoe := y' - era * 400 in
  let mp := if 2 <? m then m - 3 else m + 9 in
  let doy := (153 * mp + 2) / 5 + d - 1 in
  let doe := yoe * 365 + yoe / 4 - yoe / 100 + doy in
  era * 146097 + doe - 719468.

(** The wall clock [y]-[m]-[d] [hh]:[mm]. *)
Definition at_ (y m d hh mm : Z) : Z :=
  days_from_civil y m d * us_per_day + hh * us_per_hour + mm * 60000000.

Definition iso_date (s : string) : outcome datetime :=
  if negb (Nat.eqb (String.length s) 10) then Raise ValueError
  else
    match number 0 (substring 0 4 s), String.get 4 s,
          number 0 (substring 5 2 s), String.get 7 s,
          number 0 (substring 8 2 s) with
    | Some y, Some "-"%char, Some m, Some "-"%char, Some d =>
        if (1 <=? y) && (1 <=? m) && (m <=? 12) && (1 <=? d) && (d <=? days_in_month y m)
        then Ok (Naive (at_ y m d 0 0))
        else Raise ValueError
    | _, _, _, _, _ => Raise ValueError
    end.

Definition runtime : Runtime :=
  {| fromisoformat := iso_date;
     system_zone := fun w => Ok (w - 2 * us_per_hour);
     LOCAL_TZ := fun _ => 2 * us_per_hour |}.

Definition weather (t : float) (hum : option float) : WeatherNow :=
  {| temp_c := t; humidity_pct := hum; precipitation_mm := None;
     cloudcover_pct := None; description := None |}.

Definition slot (t : datetime) (mm : option float) : WeatherForecastItem :=
  {| time := t; precip_prob_pct := None; expected_precip_mm := mm;
     item_temp_c := None; item_humidity_pct := None |}.

Definition request (last : option string) (w : WeatherNow) (fc : list WeatherForecastItem) : DecisionRequest :=
  {| image_url := "data:image/jpeg;base64,AAAA";
     last_watering_date := last;
     last_watering_amount_ml := None;
     weather_now := w;
     weather_forecast := {| items := fc |};
     plant := None |}.

Definition looks_fine : DecisionResponse :=
  {| zalevat := false; oduvodneni := "looks fine" |}.

(** 2024-07-15 on the wall clock: 08:00, 08:30 and 13:00. *)
Definition morning : Z := at_ 2024 7 15 8 0.
Definition half_past : Z := at_ 2024 7 15 8 30.
Definition afternoon : Z := at_ 2024 7 15 13 0.

(** A forecast slot at noon of that day, naive, with [mm] of rain. *)
Definition noon (mm : float) : WeatherForecastItem :=
  slot (Naive (at_ 2024 7 15 12 0)) (Some mm).

(** Hot and dry: 32 degrees, 25 percent. *)
Definition hot_dry : WeatherNow := weather 32 (Some 25%float).

(** A forecast slot half an hour before the end of the year 9999, UTC,
    without a value: ahead of UTC by one hour or by two, Prague is then
    past the last [datetime]. *)
Definition last_half_hour : WeatherForecastItem :=
  slot (Aware (at_ 9999 12 31 23 30)) None.

(** The heap with the candidate [looks_fine] at reference [1]. *)
Definition heap1 : gmap positive DecisionResponse := {[ 1%positive := looks_fine ]}.

End Summer.

(** What it takes for [DecisionResponse_init] to build [r] from [data]:
    [data] is an object, both fields are present, and the validators turn
    their values into the fields of [r]. *)
Definition accepted `{Validation} (data : json) (r : DecisionResponse) : Prop :=
  exists kw z o,
    data = JObj kw /\
    kw !! "zalevat" = Some z /\ kw !! "oduvodneni" = Some o /\
    validate_bool z = Some (zalevat r) /\ validate_str o = Some (oduvodneni r).

(** ** Concrete replies for worked examples

    Validators that accept a boolean and a string only, and a [json.loads]
    given on the three reply texts below (any other text is refused
    here). *)
Module Replies.

Definition q : string := String "034"%char EmptyString.

(** The object with [zalevat] false and an empty [oduvodneni]. *)
Definition empty_reason_text : string :=
  "{" +:+ q +:+ "zalevat" +:+ q +:+ ": false, " +:+ q +:+ "oduvodneni" +:+ q +:+ ": " +:+ q +:+ q +:+ "}".

Definition empty_reason : json :=
  JObj {[ "zalevat" := JBool false; "oduvodneni" := JStr "" ]}.

(** The object with [zalevat] true and nothing else. *)
Definition no_reason_text : string :=
  "{" +:+ q +:+ "zalevat" +:+ q +:+ ": true}".

Definition no_reason : json :=
  JObj {[ "zalevat" := JBool true ]}.

(** The object with an [oduvodneni] and nothing else. *)
Definition no_decision_text : string :=
  "{" +:+ q +:+ "oduvodneni" +:+ q +:+ ": " +:+ q +:+ "sucho" +:+ q +:+ "}".

Definition no_decision : json :=
  JObj {[ "oduvodneni" := JStr "sucho" ]}.

Definition loads (s : string) : outcome json :=
  if String.eqb s empty_reason_text then Ok empty_reason
  else if String.eqb s no_reason_text then Ok no_reason
  else if String.eqb s no_decision_text then Ok no_decision
  else Raise JSONDecodeError.

Definition only_bool (v : json) : option bool :=
  match v with
  | JBool b => Some b
  | _ => None
  end.

Definition only_str (v : json) : option string :=
  match v with
  | JStr s => Some s
  | _ => None
  end.

Definition validation : Validation :=
  {| json_loads := loads;
     validate_bool := only_bool;
     validate_str := only_str;
     validate_bool_JBool := fun b => eq_refl;
     validate_str_JStr := fun s => eq_refl |}.

End Replies.

(** ** Python values: messages and their log form *)

(** The values a message list is made of, and any other object [scrub]
    may meet.  A [dict] keeps its items in insertion order. *)
#[warnings="-register-all"]
Inductive pyval : Type :=
| PNone
| PBool (b : bool)
| PInt (n : Z)
| PFloat (x : float)
| PStr (s : string)
| PList (l : list pyval)
| PDict (d : list (string * pyval)).

(** [k in d] for a dict. *)
Definition has_key (k : string) (d : list (string * pyval)) : bool :=
  existsb (fun kv => String.eqb (fst kv) k) d.

(** [isinstance(v, dict) and "url" in v]. *)
Definition is_dict_with_url (v : pyval) : bool :=
  match v with
  | PDict d => has_key "url" d
  | _ => false
  end.

Definition redacted : pyval :=
  PDict [("url", PStr "<image-data-url-redacted>")].

(** The inner function [scrub] of [serialize_messages_for_log]. *)
Fixpoint scrub (include_image : bool) (o : pyval) : pyval :=
  match o with
  | PDict d =>
      PDict (map (fun kv =>
                    match kv with
                    | (k, v) =>
                        if String.eqb k "image_url" && is_dict_with_url v && negb include_image
                        then (k, redacted)
                        else (k, scrub include_image v)
                    end) d)
  | PList l => PList (map (scrub include_image) l)
  | _ => o
  end.

(** Every item of every dict inside [o], at any depth, satisfies [p]. *)
Fixpoint all_items (p : string -> pyval -> bool) (o : pyval) : bool :=
  match o with
  | PDict d => forallb (fun kv => match kv with (k, v) => p k v && all_items p v end) d
  | PList l => forallb (all_items p) l
  | _ => true
  end.

(** An item is safe to log when it is not an [image_url] holding a dict
    with a [url], or when that dict is the redaction marker. *)
Definition item_redacted (k : string) (v : pyval) : bool :=
  negb (String.eqb k "image_url" && is_dict_with_url v)
  || match v with
     | PDict [(u, PStr t)] => String.eqb u "url" && String.eqb t "<image-data-url-redacted>"
     | _ => false
     end.

(** An item that [scrub] would replace. *)
Definition item_is_image (k : string) (v : pyval) : bool :=
  String.eqb k "image_url" && is_dict_with_url v.

(** ** Request builder: the messages *)

(** How Python prints the values put into the prompt: [strftime_ymd] is
    [strftime("%Y-%m-%d")] of a wall clock; [repr_facts] is [str] of the
    dictionary [facts]; [plant_json] is [model_dump_json()] of the plant
    context; [repr_weather_now] is [str] of the weather's [model_dump()];
    [repr_forecast_items] is [str] of the list of the items'
    [model_dump()]. *)
Class Rendering : Type := {
  strftime_ymd : Z -> string;
  repr_facts : Facts -> string;
  plant_json : PlantContext -> string;
  repr_weather_now : WeatherNow -> string;
  repr_forecast_items : list WeatherForecastItem -> string
}.

Definition dquote : string := String "034"%char EmptyString.
Definition newline : string := String "010"%char EmptyString.

(** The string [system] of [build_messages]. *)
Definition system_text (today_label : string) : string :=
  "Dnes je " +:+ today_label +:+
    " ráno. Rozhodni, zda **dnes** zalít rostlinu. POVINNÝ checklist: (1) fotka – známky přemokření/usušení, (2) DNY OD POSLEDNÍ ZÁLIVKY a POSLEDNÍ OBJEM (použij přesně tato FAKTA), (3) dnešní teplota a vlhkost (odpar), (4) srážky z předpovědi počasí na příštích 12 hodin. Pokud z faktů vyplývá horko (≥30 °C) a suchý vzduch (≤40 % RH) a poslední zálivka ≥1 den a déšť <2 mm/12 h, pak nezalévat lze jen s JASNÝM důvodem (např. velmi velká dávka včera, blízký výrazný déšť). Jinak zvol zalít. Odpověz **jen** jako JSON: {"
    +:+ dquote +:+ "zalevat"
    +:+ dquote +:+ ": <true|false>, "
    +:+ dquote +:+ "oduvodneni"
    +:+ dquote +:+ ": "
    +:+ dquote +:+ "<stručné, konkrétní"
    +:+ dquote +:+ "} Nesmíš si odporovat (např. horko+sucho bez brzkého deště a přesto nezalévat bez důvodu).".

(** [str(x)] for an [Optional[str]]. *)
Definition str_optional (x : option string) : string :=
  match x with
  | Some s => s
  | None => "None"
  end.

(** [payload.last_watering_amount_ml or 'neznámý'], printed: [None] and
    [0] are falsy. *)
Definition amount_or_unknown (x : option Z) : string :=
  match x with
  | Some n => if n =? 0 then "neznámý" else Py.str_int n
  | None => "neznámý"
  end.

(** The string [user_text] of [build_messages]. *)
Definition user_text `{Rendering} (facts : Facts) (payload : DecisionRequest) : string :=
  "FAKTA: " +:+ repr_facts facts +:+ newline +:+ newline +:+
  "Poslední zálivka (ISO): " +:+ str_optional (last_watering_date payload) +:+
  " (" +:+ amount_or_unknown (last_watering_amount_ml payload) +:+ " ml)" +:+ newline +:+ newline +:+
  "Kontext rostliny: " +:+
    match plant payload with
    | Some pc => plant_json pc
    | None => "neznámý"
    end +:+ newline +:+ newline +:+
  "Aktuální počasí: " +:+ repr_weather_now (weather_now payload) +:+ newline +:+ newline +:+
  "Předpověď (prvních 12): " +:+
    repr_forecast_items (firstn 12 (items (weather_forecast payload))).

(** The list returned by [build_messages], given its two strings. *)
Definition messages_of (system user : string) (url : string) : pyval :=
  PList [ PDict [("role", PStr "system"); ("content", PStr system)];
          PDict [("role", PStr "user");
                 ("content",
                  PList [ PDict [("type", PStr "text"); ("text", PStr user)];
                          PDict [("type", PStr "image_url");
                                 ("image_url", PDict [("url", PStr url)])] ])] ].

(** [build_messages]; [now0] is the clock reading of line 105, [now1] and
    [now2] those taken inside [days_since] and [precip_sum_next_hours]. *)
Definition build_messages `{Runtime} `{Rendering} (now0 now1 now2 : Z) (payload : DecisionRequest) : outcome pyval :=
  let today_label := strftime_ymd now0 in
  let* facts := build_messages_facts now1 now2 payload in
  Ok (messages_of (system_text today_label) (user_text facts payload) (image_url payload)).

(** The value handed to [json.dumps] by [serialize_messages_for_log]. *)
Definition logged_messages (messages : pyval) (include_image : bool) : pyval :=
  scrub include_image messages.

(** ** Helpers of the entry point *)

(** The files and the MIME table: [guess_type] is the first component of
    [mimetypes.guess_type]; [read_file] is the content read in binary
    mode, an exception of [open] or [read] included; [b64encode] is
    [base64.b64encode(...).decode("ascii")]. *)
Class Files : Type := {
  guess_type : string -> option string;
  read_file : string -> outcome string;
  b64encode : string -> string
}.

(** [not mime or not mime.startswith("image/")]. *)
Definition not_an_image (mime : option string) : bool :=
  match mime with
  | None => true
  | Some m => String.eqb m "" || negb (String.prefix "image/" m)
  end.

(** [file_to_data_url] *)
Definition file_to_data_url `{Files} (path : string) : outcome string :=
  let mime := guess_type path in
  if not_an_image mime then Raise ValueError
  else
    let* content := read_file path in
    Ok ("data:" +:+ str_optional mime +:+ ";base64," +:+ b64encode content).

(** Python's [>] on the values of a history: on two strings it is the
    order of their code points, which is the order of their UTF-8 bytes;
    elsewhere it is whatever Python does, a [TypeError] included. *)
Class Comparison : Type := {
  py_gt : json -> json -> outcome bool;
  py_gt_str : forall a b, py_gt (JStr a) (JStr b) = Ok (String.ltb b a)
}.

(** [bool(x)] for a value read from JSON. *)
Definition truthy (x : json) : bool :=
  match x with
  | JNull => false
  | JBool b => b
  | JInt n => negb (n =? 0)
  | JFloat v => negb (PrimFloat.eqb v 0%float)
  | JStr s => negb (String.eqb s "")
  | JList l => match l with [] => false | _ => true end
  | JObj kw => negb (bool_decide (kw = ∅))
  end.

(** [e.get(k, default)]; an [e] that is not a dict has no [get]. *)
Definition dict_get (e : json) (k : string) (default : json) : outcome json :=
  match e with
  | JObj kw => Ok (match kw !! k with Some v => v | None => default end)
  | _ => Raise AttributeError
  end.

(** The loop of [max(..., key=...)] after its first item: [best] is the
    item kept so far and [best_key] its key; a later item replaces it only
    when its key is greater. *)
Fixpoint max_by_date `{Comparison} (best best_key : json) (rest : list json) : outcome json :=
  match rest with
  | [] => Ok best
  | e :: rest' =>
      let* k := dict_get e "date" (JStr "") in
      let* gt := py_gt k best_key in
      if gt then max_by_date e k rest' else max_by_date best best_key rest'
  end.

(** Lines 234 to 238 of [main]: the pair [(last_date, last_amount)], with
    [JNull] for [None]. *)
Definition last_watering `{Comparison} (history_raw : json) : outcome (json * json) :=
  if truthy history_raw then
    match history_raw with
    | JList (e :: rest) =>
        let* k := dict_get e "date" (JStr "") in
        let* last := max_by_date e k rest in
        let* d := dict_get last "date" JNull in
        let* a := dict_get last "amount_ml" JNull in
        Ok (d, a)
    | JStr _ | JObj _ => Raise AttributeError
    | _ => Raise TypeError
    end
  else Ok (JNull, JNull).

(** The key [max] sees for an entry whose date is the string [s], or is
    missing ([s] is then empty). *)
Definition dated (e : json) (s : string) : Prop :=
  exists kw, e = JObj kw /\
    (kw !! "date" = Some (JStr s) \/ kw !! "date" = None /\ s = "").


Definition with_items (l : list WeatherForecastItem) (p : DecisionRequest) : DecisionRequest :=
  {| image_url := image_url p;
     last_watering_date := last_watering_date p;
     last_watering_amount_ml := last_watering_amount_ml p;
     weather_now := weather_now p;
     weather_forecast := {| items := l |};
     plant := plant p |}.

(** The entry kept so far is at position [i] of the entries seen, its
    date is at least every date seen and greater than every earlier
    one. *)
Definition leads (es : list json) (keys : list string) (i : nat) (e : json) (s : string) : Prop :=
  es !! i = Some e /\ keys !! i = Some s /\
  (forall j s', keys !! j = Some s' -> String.leb s' s = true) /\
  (forall j s', (j < i)%nat -> keys !! j = Some s' -> String.ltb s' s = true).

(** ** Stand-ins for further worked examples

    A printer that shows each part of the prompt by a short label (what
    the messages look like in print plays no role in the examples), a
    comparison given on pairs of strings, and a small watering history. *)
Module Plain.

Definition rendering : Rendering :=
  {| strftime_ymd := fun _ => "2024-07-15";
     repr_facts := fun _ => "{facts}";
     plant_json := fun _ => "{plant}";
     repr_weather_now := fun _ => "{weather}";
     repr_forecast_items := fun l => "[" +:+ Py.str_int (Z.of_nat (length l)) +:+ " items]" |}.

Definition gt (a b : json) : outcome bool :=
  match a, b with
  | JStr x, JStr y => Ok (String.ltb y x)
  | _, _ => Raise TypeError
  end.

Definition comparison : Comparison :=
  {| py_gt := gt; py_gt_str := fun a b => eq_refl |}.

Definition entry (d : string) (ml : Z) : json :=
  JObj {[ "date" := JStr d; "amount_ml" := JInt ml ]}.

(** Four entries: the greatest date comes twice, the last entry has no
    date. *)
Definition history : list json :=
  [ entry "2024-07-10" 200; entry "2024-07-12" 150; entry "2024-07-12" 300;
    JObj {[ "amount_ml" := JInt 50 ]} ].

Definition history_keys : list string :=
  [ "2024-07-10"; "2024-07-12"; "2024-07-12"; "" ].

(** Twelve forecast slots at noon, half a millimetre each. *)
Definition twelve : list WeatherForecastItem :=
  repeat (Summer.noon 0.5%float) 12.

(** A slot a week later. *)
Definition next_week : WeatherForecastItem :=
  Summer.slot (Naive (Summer.at_ 2024 7 22 12 0)) (Some 9%float).

End Plain.

(** * Properties *)

(** ** Facts about binary64 arithmetic *)

Section Binary64.

(** Shifting a rounding record to the right keeps its mantissa from
    going negative. *)
Lemma shr_1_nonneg mrs : 0 <= shr_m mrs -> 0 <= shr_m (shr_1 mrs).
Proof.
  destruct mrs as [m r s]. simpl. intros Hm.
  destruct m as [|p|p]; simpl; try lia; destruct p; simpl; lia.
Qed.

Lemma iter_shr_1_nonneg p :
  forall mrs, 0 <= shr_m mrs -> 0 <= shr_m (SpecFloat.iter_pos shr_1 p mrs).
Proof.
  induction p as [p IH|p IH|]; intros mrs Hm; simpl.
  - apply IH, IH, shr_1_nonneg, Hm.
  - apply IH, IH, Hm.
  - apply shr_1_nonneg, Hm.
Qed.

Lemma shr_fexp_nonneg prec emax m e l :
  0 <= m -> 0 <= shr_m (fst (shr_fexp prec emax m e l)).
Proof.
  intros Hm. unfold shr_fexp, shr.
  assert (H0 : 0 <= shr_m (shr_record_of_loc m l)) by (destruct l as [|[]]; exact Hm).
  destruct (fexp prec emax (Zdigits2 m + e) - e); simpl; try exact H0.
  apply iter_shr_1_nonneg, H0.
Qed.

Lemma round_nearest_even_nonneg m l : 0 <= m -> 0 <= round_nearest_even m l.
Proof.
  intros Hm. unfold round_nearest_even.
  destruct l as [|[]]; try lia. destruct (Z.even m); lia.
Qed.

Lemma binary_round_aux_nonneg prec emax m e l :
  0 <= m -> SFleb (S754_zero false) (binary_round_aux prec emax false m e l) = true.
Proof.
  intros Hm. unfold binary_round_aux.
  pose proof (shr_fexp_nonneg prec emax m e l Hm) as H1.
  destruct (shr_fexp prec emax m e l) as [mrs' e']. simpl in H1.
  pose proof (shr_fexp_nonneg prec emax _ e' loc_Exact
                (round_nearest_even_nonneg _ (loc_of_shr_record mrs') H1)) as H2.
  destruct (shr_fexp prec emax (round_nearest_even _ _) e' loc_Exact) as [mrs'' e''].
  simpl in H2.
  destruct (shr_m mrs'') as [|p|p]; [reflexivity| |lia].
  destruct (e'' <=? emax - prec); reflexivity.
Qed.

Lemma SFadd_nonneg prec emax a b :
  SFleb (S754_zero false) a = true ->
  SFleb (S754_zero false) b = true ->
  SFleb (S754_zero false) (SFadd prec emax a b) = true.
Proof.
  destruct a as [sa|sa| |sa ma ea], b as [sb|sb| |sb mb eb];
    try destruct sa; try destruct sb; simpl; intros Ha Hb;
    try discriminate; try reflexivity.
  unfold binary_round.
  destruct (shl_align _ _ _) as [mz ez]. apply binary_round_aux_nonneg. lia.
Qed.

(** The sum of two floats that are [>= 0.0] is [>= 0.0]. *)
Lemma nonneg_add (x y : float) : nonneg x -> nonneg y -> nonneg (x + y)%float.
Proof.
  unfold nonneg, Py.le. rewrite !leb_spec, add_spec.
  change (Prim2SF 0) with (S754_zero false).
  apply SFadd_nonneg.
Qed.

Lemma nonneg_zero : nonneg 0%float.
Proof. reflexivity. Qed.

(** A float that is [<= 40.0] and is not minus infinity is a finite
    number, so [int] accepts it. *)
Lemma int_of_float_le_40 (x : float) :
  Py.le x 40%float = true -> x <> neg_infinity -> returns (Py.int_of_float x).
Proof.
  unfold Py.le, Py.int_of_float. rewrite leb_spec.
  change (Prim2SF 40) with (S754_finite false 5629499534213120 (-47)).
  intros Hle Hne.
  destruct (Prim2SF x) as [s|s| |s m e] eqn:E.
  - eexists; reflexivity.
  - destruct s; [|discriminate]. exfalso. apply Hne, Prim2SF_inj.
    rewrite E. reflexivity.
  - discriminate.
  - eexists; reflexivity.
Qed.

End Binary64.

Section Properties.

Context `{RT : Runtime}.

Implicit Types (now hours : Z) (req : DecisionRequest).
Implicit Types (res : loc) (h : heap) (cand : DecisionResponse).

(** ** The fact deriver *)

Lemma days_since_returns now date_str :
  exists d, days_since now date_str = Ok d.
Proof.
  destruct date_str as [s|]; [|eexists; reflexivity].
  destruct s as [|c s]; [eexists; reflexivity|].
  unfold days_since, try_except.
  destruct (let* parsed := fromisoformat _ in _); eexists; reflexivity.
Qed.


(** C9. [days_since] returns for every optional string and every clock
    reading, so it never raises; and what it returns is the unknown
    sentinel [None] when the string is absent, empty, or refused by
    [fromisoformat]. *)
Theorem days_since_never_raises now date_str :
  returns (days_since now date_str) /\
  ((date_str = None \/ date_str = Some "" \/
    exists s, date_str = Some s /\ raises (fromisoformat (Py.replace_char "Z" "+00:00" s))) ->
   days_since now date_str = Ok None).
Proof.
  split; [apply days_since_returns|].
  intros [-> | [-> | (s & -> & e & He)]]; try reflexivity.
  destruct s as [|c s]; [reflexivity|].
  unfold days_since. rewrite He. reflexivity.
Qed.

(** ** The rain window *)

Lemma checked_raises w e : checked w = Raise e -> e = OverflowError.
Proof. unfold checked. destruct (in_range w); congruence. Qed.

Lemma window_end_twelve now : window_end now 12 = checked (now + 12 * us_per_hour).
Proof. reflexivity. Qed.

Lemma window_end_value now hours end_ :
  window_end now hours = Ok end_ -> end_ = now + hours * us_per_hour.
Proof.
  unfold window_end, timedelta_hours, checked.
  destruct (_ && _); simpl; [|discriminate].
  destruct (in_range _); congruence.
Qed.

Lemma window_end_raises now hours e :
  window_end now hours = Raise e -> e = OverflowError.
Proof.
  unfold window_end, timedelta_hours.
  destruct (_ && _); simpl; [apply checked_raises|congruence].
Qed.

Lemma local_time_raises t e : local_time t = Raise e -> e = OverflowError.
Proof.
  destruct t as [w|u]; simpl; [discriminate|].
  destruct (checked u) as [u'|e'] eqn:Hu; simpl.
  - apply checked_raises.
  - intros [= <-]. apply (checked_raises u), Hu.
Qed.

Lemma in_window_closed now end_ it t :
  local_time (time it) = Ok t ->
  in_window now end_ it = true <-> now <= t <= end_.
Proof.
  intros Ht. unfold in_window. rewrite Ht, andb_true_iff, !Z.leb_le. tauto.
Qed.

Lemma rain_step_convertible now end_ total it :
  convertible it ->
  rain_step now end_ total it = Ok (rain_add now end_ total it).
Proof.
  intros [t Ht]. unfold rain_step, rain_add, in_window. rewrite Ht. reflexivity.
Qed.

(** With every timestamp convertible, the loop returns what the items add
    one after the other. *)
Lemma rain_loop_convertible now end_ l :
  Forall convertible l ->
  forall total, rain_loop now end_ l total = Ok (fold_left (rain_add now end_) l total).
Proof.
  induction 1 as [|it l Hit _ IH]; intros total; [reflexivity|].
  simpl. rewrite (rain_step_convertible _ _ _ _ Hit). simpl. apply IH.
Qed.

(** With one timestamp that cannot be converted, the loop raises. *)
Lemma rain_loop_raises now end_ l :
  Exists (fun it => raises (local_time (time it))) l ->
  forall total, rain_loop now end_ l total = Raise OverflowError.
Proof.
  induction l as [|it l IH]; intros Hex total; [inversion Hex|].
  simpl. unfold rain_step.
  destruct (local_time (time it)) as [t|e] eqn:Ht; simpl.
  - apply IH. inversion Hex as [? ? [e He]|]; subst; [congruence|assumption].
  - rewrite (local_time_raises _ _ Ht). reflexivity.
Qed.

Lemma rain_loop_filtered now end_ l :
  forall total,
    fold_left (rain_add now end_) l total =
    fold_left (fun t p => (t + p)%float)
              (omap expected_precip_mm (List.filter (in_window now end_) l)) total.
Proof.
  induction l as [|it l IH]; intros total; [reflexivity|].
  simpl. unfold rain_add at 2.
  destruct (in_window now end_ it); [|apply IH].
  simpl. destruct (expected_precip_mm it); simpl; apply IH.
Qed.

Lemma rain_loop_nonneg now end_ l :
  (forall it p, In it l -> in_window now end_ it = true ->
                expected_precip_mm it = Some p -> nonneg p) ->
  forall total, nonneg total -> nonneg (fold_left (rain_add now end_) l total).
Proof.
  induction l as [|it l IH]; intros Hl total Ht; [exact Ht|].
  simpl. apply IH; [intros; eapply Hl; eauto; right; assumption|].
  unfold rain_add. destruct (in_window now end_ it) eqn:Hw; [|exact Ht].
  destruct (expected_precip_mm it) as [p|] eqn:Hp; [|exact Ht].
  apply nonneg_add; [exact Ht|]. apply (Hl it p); [left; reflexivity|exact Hw|exact Hp].
Qed.

(** Items that lie outside the window, or carry no value, leave a running
    total as it is. *)
Lemma rain_loop_silent now end_ l :
  (forall it, In it l -> in_window now end_ it = false \/ expected_precip_mm it = None) ->
  forall total, fold_left (rain_add now end_) l total = total.
Proof.
  induction l as [|it l IH]; intros Hl total; [reflexivity|].
  simpl. rewrite IH by (intros; apply Hl; right; assumption).
  unfold rain_add.
  destruct (Hl it (or_introl eq_refl)) as [-> | ->]; [reflexivity|].
  destruct (in_window now end_ it); reflexivity.
Qed.

Lemma rain_loop_outside now end_ l :
  (forall it, In it l -> in_window now end_ it = false) ->
  forall total, fold_left (rain_add now end_) l total = total.
Proof.
  intros Hl. apply rain_loop_silent. intros it Hit. left. apply Hl, Hit.
Qed.

(** Two windows that hold the same items give the same loop, raised
    exceptions included. *)
Lemma rain_loop_same_window now end_ now' end_' l :
  (forall it, In it l -> in_window now end_ it = in_window now' end_' it) ->
  forall total, rain_loop now end_ l total = rain_loop now' end_' l total.
Proof.
  induction l as [|it l IH]; intros Hl total; [reflexivity|].
  simpl. pose proof (Hl it (or_introl eq_refl)) as Hit.
  unfold in_window in Hit. unfold rain_step.
  destruct (local_time (time it)) as [t|e]; simpl; [|reflexivity].
  rewrite Hit. apply IH. intros; apply Hl; right; assumption.
Qed.

Lemma precip_sum_convertible now forecast hours end_ :
  window_end now hours = Ok end_ ->
  Forall convertible (items forecast) ->
  precip_sum_next_hours now forecast hours
  = Ok (fold_left (rain_add now end_) (items forecast) 0%float).
Proof.
  intros He Hconv. unfold precip_sum_next_hours. rewrite He. simpl.
  apply rain_loop_convertible, Hconv.
Qed.

(** C8 (as amended). When [now + hours] is a [datetime] and every
    timestamp of the forecast has a wall clock in the local zone,
    [precip_sum_next_hours] returns the sum of [expected_precip_mm] over
    exactly the items whose wall clock lies in the closed window from
    [now] to [now + hours], both ends included; an item without a value
    adds nothing; the result is [0.0] when no item lies in the window, in
    particular for an empty forecast; and it is [>= 0.0] provided the
    values summed are.  When [now + hours] is out of range, or one
    timestamp cannot be converted, it raises [OverflowError]. *)
Theorem precip_sum_is_window_sum now forecast hours :
  (forall end_,
      window_end now hours = Ok end_ ->
      Forall convertible (items forecast) ->
      end_ = now + hours * us_per_hour /\
      precip_sum_next_hours now forecast hours = Ok (window_sum now end_ forecast) /\
      (forall it t, local_time (time it) = Ok t ->
                    (in_window now end_ it = true <-> now <= t <= end_)) /\
      ((forall it, In it (items forecast) -> in_window now end_ it = false) ->
       precip_sum_next_hours now forecast hours = Ok 0%float) /\
      ((forall it p, In it (items forecast) -> in_window now end_ it = true ->
                     expected_precip_mm it = Some p -> nonneg p) ->
       nonneg (window_sum now end_ forecast))) /\
  (raises (window_end now hours) \/
   Exists (fun it => raises (local_time (time it))) (items forecast) ->
   precip_sum_next_hours now forecast hours = Raise OverflowError).
Proof.
  split.
  - intros end_ He Hconv.
    pose proof (precip_sum_convertible now forecast hours end_ He Hconv) as Hsum.
    split; [apply (window_end_value _ _ _ He)|].
    split; [|split; [|split]].
    + rewrite Hsum. f_equal. apply rain_loop_filtered.
    + intros it t. apply in_window_closed.
    + intros Hout. rewrite Hsum. f_equal. apply rain_loop_outside, Hout.
    + intros Hpos. unfold window_sum, float_sum. rewrite <- rain_loop_filtered.
      apply (rain_loop_nonneg now end_ _ Hpos), nonneg_zero.
  - unfold precip_sum_next_hours.
    destruct (window_end now hours) as [end_|e] eqn:He; simpl.
    + intros [[e He'] | Hex]; [discriminate|]. apply rain_loop_raises, Hex.
    + intros _. rewrite (window_end_raises _ _ _ He). reflexivity.
Qed.

(** ** The guard, case by case *)

Lemma guard_facts_value now1 now2 req rain :
  precip_sum_next_hours now2 (weather_forecast req) 12 = Ok rain ->
  exists d,
    days_since now1 (last_watering_date req) = Ok d /\
    guard_facts now1 now2 req =
      Ok {| dsl := Py.or_int d 999;
            temp := temp_c (weather_now req);
            rh := match humidity_pct (weather_now req) with
                  | Some v => v
                  | None => 100%float
                  end;
            rain12 := rain |}.
Proof.
  intros Hrain.
  destruct (days_since_returns now1 (last_watering_date req)) as [d Hd].
  exists d. split; [exact Hd|]. unfold guard_facts. rewrite Hd. simpl.
  rewrite Hrain. reflexivity.
Qed.

Lemma guard_facts_raises now1 now2 req e :
  precip_sum_next_hours now2 (weather_forecast req) 12 = Raise e ->
  guard_facts now1 now2 req = Raise e.
Proof.
  intros Hrain.
  destruct (days_since_returns now1 (last_watering_date req)) as [d Hd].
  unfold guard_facts. rewrite Hd. simpl. rewrite Hrain. reflexivity.
Qed.

(** An exception met while the facts are gathered leaves the heap as it
    was. *)
Lemma guard_stops now1 now2 req res h e :
  guard_facts now1 now2 req = Raise e ->
  consistency_guard now1 now2 req res h = (Raise e, h).
Proof.
  intros Hf. unfold consistency_guard, bind, lift. rewrite Hf. reflexivity.
Qed.

Lemma guard_idle now1 now2 req res h f :
  guard_facts now1 now2 req = Ok f ->
  fires f = false ->
  consistency_guard now1 now2 req res h = (Ok res, h).
Proof.
  intros Hf Hc. unfold consistency_guard, bind, lift. rewrite Hf.
  fold (fires f). rewrite Hc. reflexivity.
Qed.

Lemma guard_keeps_water now1 now2 req res h f cand :
  guard_facts now1 now2 req = Ok f ->
  h !! res = Some cand ->
  zalevat cand = true ->
  consistency_guard now1 now2 req res h = (Ok res, h).
Proof.
  intros Hf Hh Hz. unfold consistency_guard, bind, lift. rewrite Hf.
  destruct (hot f && dry f && (1 <=? dsl f) && negb (soon_rain f)); [|reflexivity].
  unfold get_zalevat. rewrite Hh, Hz. reflexivity.
Qed.

Lemma guard_overrides now1 now2 req res h f cand txt :
  guard_facts now1 now2 req = Ok f ->
  fires f = true ->
  h !! res = Some cand ->
  zalevat cand = false ->
  guard_text f = Ok txt ->
  consistency_guard now1 now2 req res h = (Ok res, <[res := overridden txt]> h).
Proof.
  intros Hf Hc Hh Hz Ht. unfold consistency_guard, bind, lift. rewrite Hf.
  fold (fires f). rewrite Hc.
  unfold get_zalevat. rewrite Hh, Hz. simpl.
  unfold set_zalevat. rewrite Hh. rewrite Ht.
  unfold set_oduvodneni. rewrite lookup_insert_eq. simpl.
  rewrite insert_insert_eq. reflexivity.
Qed.

(** When the text of the override cannot be built, the decision has
    already been set. *)
Lemma guard_half_done now1 now2 req res h f cand e :
  guard_facts now1 now2 req = Ok f ->
  fires f = true ->
  h !! res = Some cand ->
  zalevat cand = false ->
  guard_text f = Raise e ->
  consistency_guard now1 now2 req res h
  = (Raise e, <[res := {| zalevat := true; oduvodneni := oduvodneni cand |}]> h).
Proof.
  intros Hf Hc Hh Hz Ht. unfold consistency_guard, bind, lift. rewrite Hf.
  fold (fires f). rewrite Hc.
  unfold get_zalevat. rewrite Hh, Hz. simpl.
  unfold set_zalevat. rewrite Hh. rewrite Ht. reflexivity.
Qed.

(** With [100] standing for an unknown humidity, the weather condition of
    the guard is false. *)
Lemma fires_without_humidity days t rain :
  fires {| dsl := days; temp := t; rh := 100; rain12 := rain |} = false.
Proof.
  unfold fires, dry. cbn [rh].
  replace (Py.le 100 40) with false by reflexivity.
  rewrite andb_false_r. reflexivity.
Qed.

(** The guard touches no object but the one at [res]. *)
Lemma guard_frame now1 now2 req res h l :
  l <> res ->
  snd (consistency_guard now1 now2 req res h) !! l = h !! l.
Proof.
  intros Hl. unfold consistency_guard, bind, lift.
  destruct (guard_facts now1 now2 req) as [f|e]; [|reflexivity].
  destruct (hot f && dry f && (1 <=? dsl f) && negb (soon_rain f)); [|reflexivity].
  unfold get_zalevat. destruct (h !! res) as [cand|] eqn:Hh; [|reflexivity].
  destruct (zalevat cand); [reflexivity|]. simpl.
  unfold set_zalevat. rewrite Hh.
  destruct (guard_text f) as [txt|e]; simpl.
  - unfold set_oduvodneni. rewrite lookup_insert_eq. simpl.
    rewrite insert_insert_eq. apply lookup_insert_ne. congruence.
  - apply lookup_insert_ne. congruence.
Qed.


(** C3 (as amended). With the humidity of the current weather absent, the
    guard never changes the candidate, whatever the temperature, the
    watering date, the clock and the candidate: when the rain of the next
    12 hours can be summed it returns the reference it was given and
    leaves the heap as it was; when that sum raises, the guard raises the
    same exception, the heap again as it was. *)
Theorem guard_unknown_humidity now1 now2 req res h :
  humidity_pct (weather_now req) = None ->
  (forall rain,
      precip_sum_next_hours now2 (weather_forecast req) 12 = Ok rain ->
      consistency_guard now1 now2 req res h = (Ok res, h)) /\
  (forall e,
      precip_sum_next_hours now2 (weather_forecast req) 12 = Raise e ->
      consistency_guard now1 now2 req res h = (Raise e, h)).
Proof.
  intros Hh. split.
  - intros rain Hrain.
    destruct (guard_facts_value now1 now2 req rain Hrain) as (d & _ & Hf).
    rewrite Hh in Hf.
    apply (guard_idle _ _ _ _ _ _ Hf), fires_without_humidity.
  - intros e Hrain. apply guard_stops, guard_facts_raises, Hrain.
Qed.


(** ** What the guard decides *)

(** C1 (as amended). Let the candidate be the object at [res], and let
    the rain of the next 12 hours be summed without an exception, to
    [rain].
    If the temperature is [>= 30.0], the humidity is known, [<= 40.0]
    and not minus infinity, the day count is unknown (then [999] stands
    for it) or known and [>= 1], [rain] is not [>= 2.0], and the candidate
    says not to water, the guard returns [res] with the candidate set to
    water and its justification made of that day count, the temperature to
    zero decimals, the integer part of the humidity and the rain
    threshold.
    If the temperature is not [>= 30.0], or the humidity is unknown or
    not [<= 40.0], or the day count is known and negative, or [rain]
    is [>= 2.0], or the candidate already says to water, the guard
    returns [res] and changes nothing. *)
Theorem guard_decides now1 now2 req res h cand d rain :
  h !! res = Some cand ->
  days_since now1 (last_watering_date req) = Ok d ->
  precip_sum_next_hours now2 (weather_forecast req) 12 = Ok rain ->
  (forall hum days,
      Py.ge (temp_c (weather_now req)) 30%float = true ->
      humidity_pct (weather_now req) = Some hum ->
      Py.le hum 40%float = true ->
      hum <> neg_infinity ->
      (d = None /\ days = 999 \/ d = Some days /\ 1 <= days) ->
      Py.ge rain 2%float = false ->
      zalevat cand = false ->
      exists irh,
        Py.int_of_float hum = Ok irh /\
        consistency_guard now1 now2 req res h =
        (Ok res,
         <[res := overridden (override_text days (temp_c (weather_now req)) irh)]> h))
  /\
  (Py.ge (temp_c (weather_now req)) 30%float = false \/
   humidity_pct (weather_now req) = None \/
   (exists hum, humidity_pct (weather_now req) = Some hum /\ Py.le hum 40%float = false) \/
   (exists n, d = Some n /\ n < 0) \/
   Py.ge rain 2%float = true \/
   zalevat cand = true ->
   consistency_guard now1 now2 req res h = (Ok res, h)).
Proof.
  intros Hh Hd Hsum.
  destruct (guard_facts_value now1 now2 req rain Hsum) as (d' & Hd' & Hf).
  rewrite Hd in Hd'. injection Hd' as <-.
  split.
  - intros hum days Hhot Hhum Hdry Hfin Hdays Hrain Hz.
    destruct (int_of_float_le_40 hum Hdry Hfin) as [irh Hirh].
    exists irh. split; [exact Hirh|].
    rewrite Hhum in Hf.
    assert (Hor : Py.or_int d 999 = days /\ 1 <= days).
    { destruct Hdays as [[-> ->] | [-> Hge]]; [split; [reflexivity|lia]|].
      split; [|exact Hge]. unfold Py.or_int.
      destruct (Z.eqb_spec days 0); [lia|reflexivity]. }
    destruct Hor as [Hor Hge]. rewrite Hor in Hf.
    apply (guard_overrides _ _ _ _ _ _ cand _ Hf); try assumption.
    + unfold fires, hot, dry, soon_rain. cbn [temp rh dsl rain12].
      rewrite Hhot, Hdry, Hrain. simpl. rewrite andb_true_r.
      apply Z.leb_le, Hge.
    + unfold guard_text. cbn [temp rh dsl]. rewrite Hirh. reflexivity.
  - intros [Hcold | [Hnone | [(hum & Hhum & Hwet) | [(n & -> & Hneg) | [Hrain | Hz]]]]].
    + apply (guard_idle _ _ _ _ _ _ Hf). unfold fires, hot. cbn [temp].
      rewrite Hcold. reflexivity.
    + rewrite Hnone in Hf. apply (guard_idle _ _ _ _ _ _ Hf), fires_without_humidity.
    + rewrite Hhum in Hf. apply (guard_idle _ _ _ _ _ _ Hf).
      unfold fires, dry. cbn [rh]. rewrite Hwet, andb_false_r. reflexivity.
    + apply (guard_idle _ _ _ _ _ _ Hf). unfold fires. cbn [dsl].
      unfold Py.or_int. destruct (Z.eqb_spec n 0); [lia|].
      replace (1 <=? n) with false by (symmetry; apply Z.leb_gt; lia).
      rewrite andb_false_r. reflexivity.
    + apply (guard_idle _ _ _ _ _ _ Hf). unfold fires, soon_rain. cbn [rain12].
      rewrite Hrain, andb_false_r. reflexivity.
    + apply (guard_keeps_water _ _ _ _ _ _ cand Hf Hh Hz).
Qed.

(** ** What the guard reads from the clock *)

Lemma days_since_same_day now now' date_str :
  date now = date now' ->
  days_since now date_str = days_since now' date_str.
Proof.
  intros Hday. destruct date_str as [[|c s]|]; try reflexivity.
  unfold days_since. rewrite Hday. reflexivity.
Qed.

Lemma precip_sum_same_window now now' forecast :
  in_range (now + 12 * us_per_hour) = true ->
  in_range (now' + 12 * us_per_hour) = true ->
  (forall it, In it (items forecast) ->
              in_window now (now + 12 * us_per_hour) it
              = in_window now' (now' + 12 * us_per_hour) it) ->
  precip_sum_next_hours now forecast 12 = precip_sum_next_hours now' forecast 12.
Proof.
  intros Hr Hr' Hw. unfold precip_sum_next_hours.
  rewrite !window_end_twelve. unfold checked. rewrite Hr, Hr'. simpl.
  apply rain_loop_same_window, Hw.
Qed.

(** C4 (as amended). On one machine (one system time zone, one table of
    the local zone), the result of the guard is a function of its two
    arguments, of the heap, and of the two clock readings it takes: two
    runs with the same request and candidate agree as soon as their
    readings fall on the same local calendar day, leave room for the 12
    hours within the range of [datetime], and put the same forecast items
    in the 12-hour window. *)
Theorem guard_clock_dependence now1 now2 now1' now2' req res h :
  date now1 = date now1' ->
  in_range (now2 + 12 * us_per_hour) = true ->
  in_range (now2' + 12 * us_per_hour) = true ->
  (forall it, In it (items (weather_forecast req)) ->
              in_window now2 (now2 + 12 * us_per_hour) it
              = in_window now2' (now2' + 12 * us_per_hour) it) ->
  consistency_guard now1 now2 req res h = consistency_guard now1' now2' req res h.
Proof.
  intros Hday Hr Hr' Hwin. unfold consistency_guard, guard_facts.
  rewrite (days_since_same_day now1 now1' _ Hday).
  rewrite (precip_sum_same_window now2 now2' _ Hr Hr' Hwin).
  reflexivity.
Qed.

(** ** What the guard does to the heap *)

(** C5 (as amended). The guard builds no new response: the reference it
    returns is the one it was given, and no other object changes.  When
    the facts cannot be gathered it raises and the heap is as before.
    When the override does not fire, it returns and the heap is as
    before.  When it fires (the weather condition holds and the candidate
    says not to water), the candidate itself is updated in place: its
    decision is set to water, then its justification is replaced; if the
    new text cannot be built, the exception leaves the candidate with the
    new decision and the old justification. *)
Theorem guard_updates_in_place now1 now2 req res h cand :
  h !! res = Some cand ->
  (forall l, l <> res ->
             snd (consistency_guard now1 now2 req res h) !! l = h !! l) /\
  (forall e, guard_facts now1 now2 req = Raise e ->
             consistency_guard now1 now2 req res h = (Raise e, h)) /\
  (forall f,
      guard_facts now1 now2 req = Ok f ->
      (fires f && negb (zalevat cand) = false ->
       consistency_guard now1 now2 req res h = (Ok res, h)) /\
      (fires f && negb (zalevat cand) = true ->
       (forall txt, guard_text f = Ok txt ->
          consistency_guard now1 now2 req res h = (Ok res, <[res := overridden txt]> h) /\
          (<[res := overridden txt]> h) !! res = Some (overridden txt)) /\
       (forall e, guard_text f = Raise e ->
          consistency_guard now1 now2 req res h
          = (Raise e, <[res := {| zalevat := true; oduvodneni := oduvodneni cand |}]> h)))).
Proof.
  intros Hh. split; [|split].
  - intros l Hl. apply guard_frame, Hl.
  - intros e He. apply guard_stops, He.
  - intros f Hf. split.
    + intros Hno. apply andb_false_iff in Hno as [Hno | Hno].
      * apply (guard_idle _ _ _ _ _ _ Hf Hno).
      * apply (guard_keeps_water _ _ _ _ _ _ cand Hf Hh).
        apply negb_false_iff, Hno.
    + intros Hyes. apply andb_true_iff in Hyes as [Hfire Hz].
      apply negb_true_iff in Hz. split.
      * intros txt Htxt. split.
        -- apply (guard_overrides _ _ _ _ _ _ cand txt Hf Hfire Hh Hz Htxt).
        -- apply lookup_insert_eq.
      * intros e He. apply (guard_half_done _ _ _ _ _ _ cand e Hf Hfire Hh Hz He).
Qed.

(** A day count of zero is replaced by [999] like an unknown one: on a
    hot and dry day without rain the guard overrides for a plant watered
    today. *)
Lemma guard_zero_day_count now1 now2 req res h cand hum irh rain :
  h !! res = Some cand ->
  days_since now1 (last_watering_date req) = Ok (Some 0) ->
  precip_sum_next_hours now2 (weather_forecast req) 12 = Ok rain ->
  Py.ge (temp_c (weather_now req)) 30%float = true ->
  humidity_pct (weather_now req) = Some hum ->
  Py.le hum 40%float = true ->
  Py.int_of_float hum = Ok irh ->
  Py.ge rain 2%float = false ->
  zalevat cand = false ->
  consistency_guard now1 now2 req res h =
  (Ok res, <[res := overridden (override_text 999 (temp_c (weather_now req)) irh)]> h).
Proof.
  intros Hh Hd Hsum Hhot Hhum Hdry Hirh Hrain Hz.
  destruct (guard_facts_value now1 now2 req rain Hsum) as (d & Hd' & Hf).
  rewrite Hd in Hd'. injection Hd' as <-. rewrite Hhum in Hf. cbn in Hf.
  apply (guard_overrides _ _ _ _ _ _ cand _ Hf); try assumption.
  - unfold fires, hot, dry, soon_rain. cbn [temp rh dsl rain12].
    rewrite Hhot, Hdry, Hrain. reflexivity.
  - unfold guard_text. cbn [temp rh dsl]. rewrite Hirh. reflexivity.
Qed.

(** ** The facts summary and the guard *)

(** C6 (as amended). At the same clock readings, the prompt's facts
    summary and the guard each call [days_since] and
    [precip_sum_next_hours] on the request.  When the rain can be summed,
    both are built: the guard's rain is the sum itself and the summary's
    is that sum rounded to one decimal; the temperature is the same; the
    guard's humidity is the summary's, or [100] when that is unknown; the
    guard's day count is the summary's when that is known and not zero,
    and [999] when it is unknown.  When the sum raises, both raise the
    same exception. *)
Theorem facts_summary_and_guard now1 now2 req :
  (forall rain,
      precip_sum_next_hours now2 (weather_forecast req) 12 = Ok rain ->
      exists f g,
        build_messages_facts now1 now2 req = Ok f /\
        guard_facts now1 now2 req = Ok g /\
        days_since now1 (last_watering_date req) = Ok (days_since_last_watering f) /\
        rain12 g = rain /\
        rain_next_12h_mm f = Py.round1 (rain12 g) /\
        temp g = now_temp_c f /\
        rh g = match now_rh_pct f with Some v => v | None => 100%float end /\
        (forall n, days_since_last_watering f = Some n -> n <> 0 -> dsl g = n) /\
        (days_since_last_watering f = None -> dsl g = 999)) /\
  (forall e,
      precip_sum_next_hours now2 (weather_forecast req) 12 = Raise e ->
      build_messages_facts now1 now2 req = Raise e /\
      guard_facts now1 now2 req = Raise e).
Proof.
  split.
  - intros rain Hrain.
    destruct (guard_facts_value now1 now2 req rain Hrain) as (d & Hd & Hg).
    eexists _, _. split.
    { unfold build_messages_facts. rewrite Hd. simpl. rewrite Hrain. reflexivity. }
    split; [exact Hg|]. cbn.
    repeat (split; [reflexivity || exact Hd|]).
    split.
    + intros n -> Hn. unfold Py.or_int. destruct (Z.eqb_spec n 0); [contradiction|reflexivity].
    + intros ->. reflexivity.
  - intros e Hrain. split; [|apply guard_facts_raises, Hrain].
    unfold build_messages_facts.
    destruct (days_since_returns now1 (last_watering_date req)) as [d ->].
    simpl. rewrite Hrain. reflexivity.
Qed.

End Properties.

(** ** Validation of the reply *)

Section Reply.

Context `{V : Validation}.

Lemma DecisionResponse_init_accepted data r :
  DecisionResponse_init data = Ok r <-> accepted data r.
Proof.
  unfold accepted. split.
  - destruct data as [| | | | | |kw]; try discriminate. simpl.
    destruct (kw !! "zalevat") as [z|] eqn:Hz; [|discriminate].
    destruct (kw !! "oduvodneni") as [o|] eqn:Ho; [|discriminate].
    destruct (validate_bool z) as [b|] eqn:Hb; [|discriminate].
    destruct (validate_str o) as [t|] eqn:Ht; [|discriminate].
    intros [= <-]. exists kw, z, o. simpl. auto.
  - intros (kw & z & o & -> & Hz & Ho & Hb & Ht). simpl.
    rewrite Hz, Ho, Hb, Ht. destruct r; reflexivity.
Qed.

Lemma DecisionResponse_init_plain kw b s :
  kw !! "zalevat" = Some (JBool b) ->
  kw !! "oduvodneni" = Some (JStr s) ->
  DecisionResponse_init (JObj kw) = Ok {| zalevat := b; oduvodneni := s |}.
Proof.
  intros Hz Ho. simpl.
  rewrite Hz, Ho, validate_bool_JBool, validate_str_JStr. reflexivity.
Qed.

Lemma outcome_cases {A : Type} (o : outcome A) :
  raises o <-> forall a, o <> Ok a.
Proof.
  split.
  - intros [e ->] a. discriminate.
  - intros Hno. destruct o as [a|e]; [destruct (Hno a eq_refl)|exists e; reflexivity].
Qed.

(** C7 (as amended). The validation fails exactly when [json.loads]
    raises or its result is not accepted: not an object, a field
    missing, or a value refused by the field's validator.  A reply that
    lacks the decision or the justification fails, with nothing
    defaulted.  A reply whose decision is a boolean and whose
    justification is a string is accepted with exactly these two values,
    whatever the string: an empty justification is accepted too. *)
Theorem reply_validation content :
  (raises (call_openai content) <->
   raises (json_loads content) \/
   exists data, json_loads content = Ok data /\ forall r, ~ accepted data r) /\
  (forall r, call_openai content = Ok r <->
             exists data, json_loads content = Ok data /\ accepted data r) /\
  (forall kw, json_loads content = Ok (JObj kw) ->
              kw !! "zalevat" = None \/ kw !! "oduvodneni" = None ->
              call_openai content = Raise ValidationError) /\
  (forall kw b s, json_loads content = Ok (JObj kw) ->
                  kw !! "zalevat" = Some (JBool b) ->
                  kw !! "oduvodneni" = Some (JStr s) ->
                  call_openai content = Ok {| zalevat := b; oduvodneni := s |}).
Proof.
  unfold call_openai. split; [|split; [|split]].
  - destruct (json_loads content) as [data|e]; simpl.
    + rewrite outcome_cases. split.
      * intros Hno. right. exists data. split; [reflexivity|].
        intros r Hr. apply (Hno r), DecisionResponse_init_accepted, Hr.
      * intros [[e He] | (data' & [= <-] & Hno)]; [discriminate|].
        intros r Hr. apply (Hno r), DecisionResponse_init_accepted, Hr.
    + split; [intros _; left; exists e; reflexivity|intros _; exists e; reflexivity].
  - intros r. destruct (json_loads content) as [data|e]; simpl.
    + rewrite DecisionResponse_init_accepted. split.
      * intros Hr. exists data. auto.
      * intros (data' & [= <-] & Hr). exact Hr.
    + split; [discriminate|]. intros (data' & Hd & _). discriminate.
  - intros kw -> Hmiss. simpl.
    destruct Hmiss as [-> | ->]; [reflexivity|].
    destruct (kw !! "zalevat"); reflexivity.
  - intros kw b s -> Hz Ho. simpl.
    apply DecisionResponse_init_plain; assumption.
Qed.

End Reply.

(** * Worked examples *)

Module Examples.

Import Summer.

#[local] Existing Instance Summer.runtime.

Local Open Scope positive_scope.

(** ** The fact deriver *)

Example days_since_three_days : days_since morning (Some "2024-07-12") = Ok (Some 3%Z).
Proof. reflexivity. Qed.

Example days_since_garbage : days_since morning (Some "yesterday") = Ok None.
Proof. reflexivity. Qed.


(** C8: a negative expected precipitation inside the window gives a
    negative sum; a hundred million hours lead past the year 9999, and a
    timestamp half an hour before its end has no wall clock in the local
    zone: both raise. *)
Lemma precip_sum_negative :
  (precip_sum_next_hours morning {| items := [noon (-1.5)%float] |} 12 = Ok (-1.5)%float /\
   in_window morning (morning + 12 * us_per_hour)%Z (noon (-1.5)%float) = true /\
   Py.le 0%float (-1.5)%float = false) /\
  precip_sum_next_hours morning {| items := [] |} 100000000 = Raise OverflowError /\
  precip_sum_next_hours morning {| items := [last_half_hour] |} 12 = Raise OverflowError.
Proof. repeat split. Qed.

(** The ends of the window belong to it; one microsecond outside does
    not. *)
Example window_ends :
  precip_sum_next_hours morning
    {| items := [slot (Naive morning) (Some 1%float);
                 slot (Naive (morning + 12 * us_per_hour)%Z) (Some 2%float);
                 slot (Naive (morning - 1)%Z) (Some 4%float);
                 slot (Naive (morning + 12 * us_per_hour + 1)%Z) (Some 8%float);
                 slot (Aware (morning - 2 * us_per_hour)%Z) (Some 16%float);
                 slot (Naive (morning + us_per_hour)%Z) None] |} 12 = Ok 19%float.
Proof. reflexivity. Qed.

(** ** The guard *)

(** C3, at a concrete input: 35 degrees, five days since watering, no
    rain, humidity unknown. *)
Lemma guard_unknown_humidity_witness :
  consistency_guard morning morning
    (request (Some "2024-07-10") (weather 35 None) []) 1 heap1 = (Ok 1, heap1).
Proof.
  destruct (guard_unknown_humidity morning morning
              (request (Some "2024-07-10") (weather 35 None) []) 1 heap1)
    as [Hreturns _]; [reflexivity|].
  apply (Hreturns 0%float). reflexivity.
Defined.

(** C3: the same weather with a forecast slot half an hour before the end
    of the year 9999.  The guard does not return: the rain sum raises
    before the humidity is looked at. *)
Lemma guard_unknown_humidity_far_future :
  humidity_pct (weather_now (request (Some "2024-07-10") (weather 35 None) [last_half_hour]))
  = None /\
  consistency_guard morning morning
    (request (Some "2024-07-10") (weather 35 None) [last_half_hour]) 1 heap1
  = (Raise OverflowError, heap1).
Proof. repeat split. Qed.

(** C1, at a concrete input: 32 degrees, 25 percent, three days since
    watering, half a millimetre of rain at noon, candidate "looks
    fine". *)
Lemma guard_decides_witness :
  consistency_guard morning morning
    (request (Some "2024-07-12") hot_dry [noon 0.5%float]) 1 heap1 =
  (Ok 1, <[1 := overridden "3 d od zálivky, 32°C/25% RH, déšť <2 mm/12h → raději zalij."]> heap1).
Proof.
  destruct (guard_decides morning morning
              (request (Some "2024-07-12") hot_dry [noon 0.5%float]) 1 heap1
              looks_fine (Some 3%Z) 0.5%float) as [Hfire _];
    [reflexivity | reflexivity | reflexivity |].
  destruct (Hfire 25%float 3%Z) as (irh & Hirh & Hg);
    [reflexivity | reflexivity | reflexivity | | | reflexivity | reflexivity |].
  - intros Heq. apply (f_equal Prim2SF) in Heq. vm_compute in Heq. discriminate.
  - right. split; [reflexivity | lia].
  - vm_compute in Hirh. injection Hirh as <-. exact Hg.
Defined.

(** Mild and humid weather: the candidate is left alone, whichever it
    is. *)
Example guard_mild_weather (c : DecisionResponse) :
  consistency_guard morning morning
    (request (Some "2024-07-10") (weather 22 (Some 60%float)) []) 1 {[ 1 := c ]}
  = (Ok 1, {[ 1 := c ]}).
Proof. reflexivity. Qed.

(** C1: three inputs on which the statement with "rain below 2.0" and "a
    response is returned" fails.  With a NaN in the window the rain is
    not below [2.0], and the guard overrides.  With a humidity of minus
    infinity the guard raises, after it has set the decision.  With mild
    weather and a forecast slot half an hour before the end of the year
    9999, the guard raises instead of returning the candidate. *)
Lemma guard_nan_rain_and_infinite_humidity :
  (precip_sum_next_hours morning {| items := [noon nan] |} 12 = Ok nan /\
   Py.lt nan 2%float = false /\
   consistency_guard morning morning
     (request (Some "2024-07-12") hot_dry [noon nan]) 1 heap1 =
   (Ok 1, {[ 1 := overridden "3 d od zálivky, 32°C/25% RH, déšť <2 mm/12h → raději zalij." ]}))
  /\
  (Py.le neg_infinity 40%float = true /\
   consistency_guard morning morning
     (request (Some "2024-07-12") (weather 32 (Some neg_infinity)) []) 1 heap1 =
   (Raise OverflowError, {[ 1 := {| zalevat := true; oduvodneni := "looks fine" |} ]}))
  /\
  (Py.ge 22%float 30%float = false /\
   consistency_guard morning morning
     (request (Some "2024-07-12") (weather 22 (Some 60%float)) [last_half_hour]) 1 heap1 =
   (Raise OverflowError, heap1)).
Proof. repeat split. Qed.

(** C2: watered today.  The day count is a known [0], the guard puts
    [999] in its place and overrides. *)
Lemma guard_watered_today :
  days_since morning (Some "2024-07-15") = Ok (Some 0%Z) /\
  guard_facts morning morning (request (Some "2024-07-15") hot_dry []) =
    Ok {| dsl := 999; temp := 32; rh := 25; rain12 := 0 |} /\
  consistency_guard morning morning
    (request (Some "2024-07-15") hot_dry []) 1 heap1 =
  (Ok 1, {[ 1 := overridden "999 d od zálivky, 32°C/25% RH, déšť <2 mm/12h → raději zalij." ]}).
Proof. repeat split. Qed.

(** C4: one request, one candidate, two times of the same day.  At 08:00
    the five millimetres of noon are in the window and the candidate
    stays; at 13:00 they are not and the guard overrides. *)
Lemma guard_morning_and_afternoon :
  consistency_guard morning morning
    (request (Some "2024-07-12") hot_dry [noon 5%float]) 1 heap1 = (Ok 1, heap1) /\
  consistency_guard afternoon afternoon
    (request (Some "2024-07-12") hot_dry [noon 5%float]) 1 heap1 =
  (Ok 1, {[ 1 := overridden "3 d od zálivky, 32°C/25% RH, déšť <2 mm/12h → raději zalij." ]}) /\
  heap1 !! 1 <> ({[ 1 := overridden "3 d od zálivky, 32°C/25% RH, déšť <2 mm/12h → raději zalij." ]} : gmap positive DecisionResponse) !! 1.
Proof. repeat split. discriminate. Qed.

(** C4, at a concrete input: 08:00 and 08:30 of the same day. *)
Lemma guard_clock_dependence_witness :
  consistency_guard morning morning
    (request (Some "2024-07-12") hot_dry [noon 5%float]) 1 heap1 =
  consistency_guard half_past half_past
    (request (Some "2024-07-12") hot_dry [noon 5%float]) 1 heap1.
Proof.
  apply guard_clock_dependence; [reflexivity | reflexivity | reflexivity |].
  intros it [<- | []]. reflexivity.
Defined.

(** C5: after an override the object the caller passed holds the new
    decision and the new justification. *)
Lemma guard_overwrites_candidate :
  heap1 !! 1 = Some looks_fine /\
  snd (consistency_guard morning morning
         (request (Some "2024-07-12") hot_dry []) 1 heap1) !! 1 =
  Some (overridden "3 d od zálivky, 32°C/25% RH, déšť <2 mm/12h → raději zalij.") /\
  fst (consistency_guard morning morning
         (request (Some "2024-07-12") hot_dry []) 1 heap1) = Ok 1.
Proof. repeat split. Qed.

(** C5, at a concrete input: the same run, with a second object in the
    heap. *)
Lemma guard_updates_in_place_witness :
  consistency_guard morning morning
    (request (Some "2024-07-12") hot_dry []) 1 (<[2 := looks_fine]> heap1) =
  (Ok 1, <[1 := overridden "3 d od zálivky, 32°C/25% RH, déšť <2 mm/12h → raději zalij."]>
           (<[2 := looks_fine]> heap1)) /\
  (<[1 := overridden "3 d od zálivky, 32°C/25% RH, déšť <2 mm/12h → raději zalij."]>
     (<[2 := looks_fine]> heap1)) !! 1 =
  Some (overridden "3 d od zálivky, 32°C/25% RH, déšť <2 mm/12h → raději zalij.") /\
  snd (consistency_guard morning morning
         (request (Some "2024-07-12") hot_dry []) 1 (<[2 := looks_fine]> heap1)) !! 2 =
  Some looks_fine.
Proof.
  destruct (guard_updates_in_place morning morning
              (request (Some "2024-07-12") hot_dry []) 1 (<[2 := looks_fine]> heap1)
              looks_fine)
    as (Hframe & _ & Hrun); [reflexivity|].
  destruct (Hrun {| dsl := 3; temp := 32; rh := 25; rain12 := 0 |} eq_refl)
    as [_ Hfire].
  destruct (Hfire eq_refl) as [Hdone _].
  destruct (Hdone "3 d od zálivky, 32°C/25% RH, déšť <2 mm/12h → raději zalij." eq_refl)
    as [Hdone1 Hdone2].
  split; [exact Hdone1|]. split; [exact Hdone2|].
  etransitivity; [apply (Hframe 2); discriminate | reflexivity].
Defined.

(** C6: no watering history and 1.96 mm at noon.  The summary shows no
    day count and [2.0] mm; the guard works with [999] days and 1.96 mm,
    and overrides.  With a forecast slot half an hour before the end of
    the year 9999 there is neither a summary nor a guard value: both
    raise. *)
Lemma facts_summary_differs :
  (build_messages_facts morning morning (request None hot_dry [noon 1.96%float]) =
     Ok {| days_since_last_watering := None;
           facts_last_watering_amount_ml := None;
           rain_next_12h_mm := 2;
           now_temp_c := 32;
           now_rh_pct := Some 25%float |} /\
   guard_facts morning morning (request None hot_dry [noon 1.96%float]) =
     Ok {| dsl := 999; temp := 32; rh := 25; rain12 := 1.96 |} /\
   PrimFloat.eqb 2 1.96 = false /\
   Py.ge 2 2 = true /\ Py.ge 1.96 2 = false) /\
  build_messages_facts morning morning (request None hot_dry [last_half_hour])
  = Raise OverflowError /\
  guard_facts morning morning (request None hot_dry [last_half_hour])
  = Raise OverflowError.
Proof. repeat split. Qed.

(** ** The reply *)

#[local] Existing Instance Replies.validation.

Example reply_without_reason :
  call_openai Replies.no_reason_text = Raise ValidationError.
Proof. reflexivity. Qed.

Example reply_without_decision :
  call_openai Replies.no_decision_text = Raise ValidationError.
Proof. reflexivity. Qed.

Example reply_not_json :
  call_openai "Zalij ji." = Raise JSONDecodeError.
Proof. reflexivity. Qed.

(** C7: a reply with an empty justification does not match the schema
    as specified, and it is accepted. *)
Lemma empty_justification_accepted :
  ~ matches_schema Replies.empty_reason /\
  json_loads Replies.empty_reason_text = Ok Replies.empty_reason /\
  call_openai Replies.empty_reason_text = Ok {| zalevat := false; oduvodneni := "" |} /\
  (forall (V : Validation) content,
      @json_loads V content = Ok Replies.empty_reason ->
      @call_openai V content = Ok {| zalevat := false; oduvodneni := "" |}).
Proof.
  split; [|split; [reflexivity|split; [reflexivity|]]].
  - intros (kw & b & s & Hobj & _ & Ho & Hs).
    injection Hobj as <-. vm_compute in Ho. congruence.
  - intros V content Hl. unfold call_openai. rewrite Hl.
    apply (@DecisionResponse_init_plain V); reflexivity.
Qed.

End Examples.


(** * Further properties *)

(** ** The log form of the messages *)

Section Scrub.

(** Induction on a Python value, with the hypothesis available for every
    element of a list and for every value of a dict. *)
Lemma pyval_nested_ind (P : pyval -> Prop) :
  P PNone ->
  (forall b, P (PBool b)) ->
  (forall n, P (PInt n)) ->
  (forall x, P (PFloat x)) ->
  (forall s, P (PStr s)) ->
  (forall l, Forall P l -> P (PList l)) ->
  (forall d, Forall (fun kv => P (snd kv)) d -> P (PDict d)) ->
  forall o, P o.
Proof.
  intros HNone HBool HInt HFloat HStr HList HDict.
  fix IH 1. intros [| b | n | x | s | l | d].
  - exact HNone.
  - apply HBool.
  - apply HInt.
  - apply HFloat.
  - apply HStr.
  - apply HList. induction l as [|o l IHl]; constructor; [apply IH | exact IHl].
  - apply HDict. induction d as [|[k v] d IHd]; constructor; [apply IH | exact IHd].
Qed.

Lemma has_key_map (f : string * pyval -> string * pyval) k d :
  (forall kv, fst (f kv) = fst kv) ->
  has_key k (map f d) = has_key k d.
Proof.
  intros Hf. unfold has_key. induction d as [|kv d IH]; [reflexivity|].
  simpl. rewrite Hf, IH. reflexivity.
Qed.

(** [scrub] keeps the keys of a dict, so it keeps the answer to "is this
    a dict with a [url]". *)
Lemma is_dict_with_url_scrub b v :
  is_dict_with_url (scrub b v) = is_dict_with_url v.
Proof.
  destruct v as [| | | | | l | d]; try reflexivity.
  simpl. apply has_key_map. intros [k v]. simpl.
  destruct (_ && _ && _); reflexivity.
Qed.

(** X1. With the image included, [scrub] returns the value it was given,
    whatever the value. *)
Theorem scrub_with_image o : scrub true o = o.
Proof.
  induction o as [| | | | | l IH | d IH] using pyval_nested_ind; try reflexivity.
  - simpl. f_equal. induction IH as [|o l Ho _ IHl]; [reflexivity|].
    simpl. rewrite Ho, IHl. reflexivity.
  - simpl. f_equal. induction IH as [|[k v] d Hv _ IHd]; [reflexivity|].
    simpl in *. rewrite andb_false_r, Hv, IHd. reflexivity.
Qed.

(** X2. Scrubbing twice gives what scrubbing once gives. *)
Theorem scrub_idempotent b o : scrub b (scrub b o) = scrub b o.
Proof.
  induction o as [| | | | | l IH | d IH] using pyval_nested_ind; try reflexivity.
  - simpl. f_equal. rewrite map_map.
    induction IH as [|o l Ho _ IHl]; [reflexivity|].
    simpl. rewrite Ho, IHl. reflexivity.
  - simpl. f_equal. rewrite map_map.
    induction IH as [|[k v] d Hv _ IHd]; [reflexivity|].
    simpl in *. rewrite IHd. f_equal.
    destruct (String.eqb k "image_url" && is_dict_with_url v && negb b) eqn:Hc.
    + apply andb_true_iff in Hc as [Hc ->]. apply andb_true_iff in Hc as [-> _].
      reflexivity.
    + rewrite is_dict_with_url_scrub, Hc, Hv. reflexivity.
Qed.

(** X3. Without the image, nothing that [scrub] returns holds, at any
    depth, an [image_url] item whose value is a dict with a [url] other
    than the redaction marker. *)
Theorem scrub_redacts o : all_items item_redacted (scrub false o) = true.
Proof.
  induction o as [| | | | | l IH | d IH] using pyval_nested_ind; try reflexivity.
  - simpl.
    induction IH as [|o l Ho _ IHl]; [reflexivity|].
    simpl. rewrite Ho, IHl. reflexivity.
  - simpl.
    induction IH as [|[k v] d Hv _ IHd]; [reflexivity|].
    simpl in *. rewrite IHd, andb_true_r.
    rewrite (andb_true_r (_ && _)).
    destruct (String.eqb k "image_url" && is_dict_with_url v) eqn:Hc.
    + apply andb_true_iff in Hc as [Hk _]. apply String.eqb_eq in Hk.
      subst k. reflexivity.
    + rewrite Hv, andb_true_r. unfold item_redacted.
      rewrite is_dict_with_url_scrub, Hc. reflexivity.
Qed.

(** X4. A value in which no [image_url] item holds a dict with a [url]
    comes back from [scrub] as it was, with or without the image. *)
Theorem scrub_without_image_item b o :
  all_items (fun k v => negb (item_is_image k v)) o = true ->
  scrub b o = o.
Proof.
  induction o as [| | | | | l IH | d IH] using pyval_nested_ind; try reflexivity.
  - simpl. intros Hall. f_equal.
    induction IH as [|o l Ho _ IHl]; [reflexivity|].
    simpl in *. apply andb_true_iff in Hall as [H1 H2].
    rewrite (Ho H1), (IHl H2). reflexivity.
  - simpl. intros Hall. f_equal.
    induction IH as [|[k v] d Hv _ IHd]; [reflexivity|].
    simpl in *. apply andb_true_iff in Hall as [H1 H2].
    apply andb_true_iff in H1 as [Hk Hsub].
    rewrite (IHd H2). unfold item_is_image in Hk.
    apply negb_true_iff in Hk. rewrite Hk. simpl. rewrite (Hv Hsub). reflexivity.
Qed.

End Scrub.

(** ** The messages *)

Section Messages.

Context `{RT : Runtime} `{RD : Rendering}.




Lemma rain_loop_app now end_ l1 l2 :
  forall total,
    rain_loop now end_ (l1 ++ l2) total
    = (let* t := rain_loop now end_ l1 total in rain_loop now end_ l2 t).
Proof.
  induction l1 as [|it l1 IH]; intros total; [reflexivity|].
  simpl. destruct (rain_step now end_ total it) as [t|e]; simpl; [apply IH|reflexivity].
Qed.

(** Convertible items that lie outside the window, or carry no value,
    leave the loop where it was. *)
Lemma rain_loop_quiet now end_ l :
  (forall it, In it l ->
              convertible it /\
              (in_window now end_ it = false \/ expected_precip_mm it = None)) ->
  forall total, rain_loop now end_ l total = Ok total.
Proof.
  intros Hl total.
  rewrite rain_loop_convertible.
  - f_equal. apply rain_loop_silent. intros it Hit. apply (Hl it Hit).
  - apply Forall_forall. intros it Hit. apply (Hl it), list_elem_of_In, Hit.
Qed.

(** X6. Forecast items past the twelfth reach the prompt only through the
    12-hour rain sum: appended to a forecast of twelve items or more,
    items whose timestamps have a wall clock in the local zone and that
    are outside the window or carry no expected precipitation leave the
    outcome of [build_messages] as it was, messages or exception. *)
Theorem build_messages_late_items now0 now1 now2 p extra :
  (12 <= length (items (weather_forecast p)))%nat ->
  (forall it, In it extra ->
              convertible it /\
              (in_window now2 (now2 + 12 * us_per_hour) it = false \/
               expected_precip_mm it = None)) ->
  build_messages now0 now1 now2 (with_items (items (weather_forecast p) ++ extra) p)
  = build_messages now0 now1 now2 p.
Proof.
  intros Hlen Hextra. unfold build_messages, build_messages_facts.
  cbn [with_items last_watering_date last_watering_amount_ml weather_now
       weather_forecast plant image_url items].
  assert (Hrain : precip_sum_next_hours now2
                    {| items := items (weather_forecast p) ++ extra |} 12
                  = precip_sum_next_hours now2 (weather_forecast p) 12).
  { unfold precip_sum_next_hours. cbn [items].
    destruct (window_end now2 12) as [end_|e] eqn:He; [|reflexivity].
    simpl. rewrite rain_loop_app.
    destruct (rain_loop now2 end_ (items (weather_forecast p)) 0%float) as [t|e];
      [|reflexivity].
    simpl. apply rain_loop_quiet.
    rewrite (window_end_value _ _ _ He). exact Hextra. }
  rewrite Hrain.
  destruct (days_since now1 (last_watering_date p)) as [d|e]; [|reflexivity].
  simpl obind.
  destruct (precip_sum_next_hours now2 (weather_forecast p) 12) as [rain|e];
    [|reflexivity].
  simpl obind. unfold user_text.
  cbn [with_items last_watering_date last_watering_amount_ml weather_now
       weather_forecast plant image_url items].
  rewrite firstn_app.
  replace (12 - length (items (weather_forecast p)))%nat with 0%nat by lia.
  rewrite firstn_0, app_nil_r. reflexivity.
Qed.

End Messages.

(** ** The last watering of the history *)

Section StringOrder.

Lemma string_compare_trans a :
  forall b c, String.compare a b <> Gt -> String.compare b c = Lt ->
              String.compare a c = Lt.
Proof.
  induction a as [|x a IH]; intros [|y b] [|z c]; simpl; try congruence.
  unfold Ascii.compare.
  destruct (N.compare_spec (N_of_ascii x) (N_of_ascii y)) as [Hxy|Hxy|Hxy];
    destruct (N.compare_spec (N_of_ascii y) (N_of_ascii z)) as [Hyz|Hyz|Hyz];
    destruct (N.compare_spec (N_of_ascii x) (N_of_ascii z)) as [Hxz|Hxz|Hxz];
    try congruence; try lia; intros; try reflexivity.
  apply (IH b c); assumption.
Qed.

Lemma string_leb_refl a : String.leb a a = true.
Proof.
  unfold String.leb. replace (String.compare a a) with Eq; [reflexivity|].
  induction a as [|x a IH]; [reflexivity|]. simpl.
  unfold Ascii.compare. rewrite N.compare_refl. exact IH.
Qed.

Lemma string_ltb_false a b : String.ltb a b = false -> String.leb b a = true.
Proof.
  unfold String.ltb, String.leb. rewrite (String.compare_antisym b a).
  destruct (String.compare a b); simpl; congruence.
Qed.

Lemma string_leb_ltb_trans a b c :
  String.leb a b = true -> String.ltb b c = true -> String.ltb a c = true.
Proof.
  unfold String.leb, String.ltb. intros Hab Hbc.
  rewrite (string_compare_trans a b c); [reflexivity| |].
  - destruct (String.compare a b); congruence.
  - destruct (String.compare b c); congruence.
Qed.

Lemma string_ltb_leb a b : String.ltb a b = true -> String.leb a b = true.
Proof.
  unfold String.leb, String.ltb. destruct (String.compare a b); congruence.
Qed.

End StringOrder.

Section History.

Context `{CMP : Comparison}.

Lemma dated_key e s : dated e s -> dict_get e "date" (JStr "") = Ok (JStr s).
Proof.
  intros (kw & -> & [Hd | [Hd ->]]); simpl; rewrite Hd; reflexivity.
Qed.

Lemma max_by_date_leads rest :
  forall rkeys pre pkeys i best bs,
    Forall2 dated rest rkeys ->
    length pre = length pkeys ->
    leads pre pkeys i best bs ->
    exists i' e s,
      max_by_date best (JStr bs) rest = Ok e /\
      leads (pre ++ rest) (pkeys ++ rkeys) i' e s.
Proof.
  induction rest as [|e rest IH]; intros rkeys pre pkeys i best bs Hd Hlen Hlead.
  - inversion Hd; subst. exists i, best, bs. rewrite !app_nil_r. split; [reflexivity|exact Hlead].
  - inversion Hd as [|? k ? rkeys' Hk Hd']; subst.
    destruct Hlead as (Hbest & Hbs & Hmax & Hfirst).
    assert (Hi : (i < length pre)%nat) by (eapply lookup_lt_Some; eassumption).
    simpl. rewrite (dated_key e k Hk). simpl. rewrite py_gt_str. simpl.
    rewrite (cons_middle e pre rest), (cons_middle k pkeys rkeys'), !app_assoc.
    destruct (String.ltb bs k) eqn:Hgt.
    + apply (IH rkeys' (pre ++ [e]) (pkeys ++ [k]) (length pre) e k Hd').
      { rewrite !length_app. simpl. lia. }
      split; [apply list_lookup_middle; reflexivity|].
      split; [apply list_lookup_middle; exact Hlen|].
      split.
      * intros j s' Hj.
        destruct (decide (j < length pkeys)%nat) as [Hlt|Hge].
        -- rewrite lookup_app_l in Hj by exact Hlt.
           apply string_ltb_leb, (string_leb_ltb_trans s' bs k); [|exact Hgt].
           apply (Hmax j), Hj.
        -- rewrite lookup_app_r in Hj by lia.
           destruct (j - length pkeys)%nat; simpl in Hj; [|discriminate].
           injection Hj as <-. apply string_leb_refl.
      * intros j s' Hlt Hj. rewrite lookup_app_l in Hj by lia.
        apply (string_leb_ltb_trans s' bs k); [|exact Hgt].
        apply (Hmax j), Hj.
    + apply (IH rkeys' (pre ++ [e]) (pkeys ++ [k]) i best bs Hd').
      { rewrite !length_app. simpl. lia. }
      split; [rewrite lookup_app_l by exact Hi; exact Hbest|].
      split; [rewrite lookup_app_l by lia; exact Hbs|].
      split.
      * intros j s' Hj.
        destruct (decide (j < length pkeys)%nat) as [Hlt|Hge].
        -- rewrite lookup_app_l in Hj by exact Hlt. apply (Hmax j), Hj.
        -- rewrite lookup_app_r in Hj by lia.
           destruct (j - length pkeys)%nat; simpl in Hj; [|discriminate].
           injection Hj as <-. apply string_ltb_false, Hgt.
      * intros j s' Hlt Hj. rewrite lookup_app_l in Hj by lia.
        apply (Hfirst j); assumption.
Qed.

(** X7. For a history that is a non-empty list of objects whose dates are
    strings (a missing date counts as the empty string), the selection
    returns the date and the amount of one entry of the list: the first of
    those whose date string is the greatest in the order of the code
    points.  A missing [date] or [amount_ml] of that entry comes back as
    [None]. *)
Theorem last_watering_latest es keys :
  es <> [] ->
  Forall2 dated es keys ->
  exists i e s d a,
    last_watering (JList es) = Ok (d, a) /\
    dict_get e "date" JNull = Ok d /\
    dict_get e "amount_ml" JNull = Ok a /\
    es !! i = Some e /\ keys !! i = Some s /\
    (forall j s', keys !! j = Some s' -> String.leb s' s = true) /\
    (forall j s', (j < i)%nat -> keys !! j = Some s' -> String.ltb s' s = true).
Proof.
  intros Hne Hd. destruct es as [|e0 rest]; [congruence|].
  inversion Hd as [|? k0 ? rkeys Hk0 Hrest]; subst.
  destruct (max_by_date_leads rest rkeys [e0] [k0] 0%nat e0 k0 Hrest eq_refl)
    as (i & e & s & Hmax & He & Hs & Hall & Hfirst).
  { split; [reflexivity|]. split; [reflexivity|]. split.
    - intros [|j] s' Hj; simpl in Hj; [|discriminate].
      injection Hj as <-. apply string_leb_refl.
    - intros j s' Hlt. lia. }
  assert (Hobj : exists kw, e = JObj kw).
  { apply (Forall2_lookup_l _ _ _ i e) in Hd as (s0 & _ & (kw & -> & _)); [|exact He].
    exists kw. reflexivity. }
  destruct Hobj as [kw ->].
  exists i, (JObj kw), s. eexists _, _.
  split.
  { unfold last_watering. simpl truthy. cbv iota.
    rewrite (dated_key e0 k0 Hk0). simpl obind. rewrite Hmax. simpl. reflexivity. }
  repeat split; try assumption.
Qed.

End History.

(** ** The image reference *)

Section DataUrl.

Context `{FS : Files}.

Lemma prefix_append a :
  forall m rest, String.prefix a m = true -> String.prefix a (m +:+ rest) = true.
Proof.
  induction a as [|x a IH]; intros m rest Hp.
  - destruct (m +:+ rest); reflexivity.
  - destruct m as [|y m]; simpl in Hp; [discriminate|].
    simpl. destruct (ascii_dec x y); [|discriminate].
    apply IH, Hp.
Qed.

(** X8. [file_to_data_url] raises [ValueError] whenever the guessed type
    is missing, empty or not an image type, whether the file can be read
    or not; and whatever it returns is a data URL of an image type, made
    of the guessed type and of the encoded content of the file. *)
Theorem file_to_data_url_image path :
  (not_an_image (guess_type path) = true ->
   file_to_data_url path = Raise ValueError) /\
  (forall r, file_to_data_url path = Ok r ->
     String.prefix "data:image/" r = true /\
     exists m content,
       guess_type path = Some m /\ read_file path = Ok content /\
       r = "data:" +:+ m +:+ ";base64," +:+ b64encode content).
Proof.
  unfold file_to_data_url. split.
  - intros ->. reflexivity.
  - intros r. destruct (not_an_image (guess_type path)) eqn:Hm; [discriminate|].
    destruct (guess_type path) as [m|]; [|discriminate]. simpl in Hm.
    apply orb_false_iff in Hm as [_ Hm]. apply negb_false_iff in Hm.
    destruct (read_file path) as [content|e]; [|discriminate].
    simpl. intros [= <-]. split.
    + exact (prefix_append "image/" m _ Hm).
    + exists m, content. auto.
Qed.

End DataUrl.

(** ** More on the fact deriver and the guard *)

Section Deriver.

Context `{RT : Runtime}.

Implicit Types (now hours : Z) (req : DecisionRequest).
Implicit Types (res : loc) (h : heap) (cand : DecisionResponse).

(** A date that parses but has no wall clock in the local zone, because
    the conversion leaves the range of [datetime], counts as unknown. *)
Lemma days_since_unconvertible now s parsed :
  s <> "" ->
  fromisoformat (Py.replace_char "Z" "+00:00" s) = Ok parsed ->
  raises (astimezone_LOCAL parsed) ->
  days_since now (Some s) = Ok None.
Proof.
  intros Hs Hp [e He]. destruct s as [|c s]; [congruence|].
  unfold days_since. rewrite Hp. simpl. rewrite He. reflexivity.
Qed.

(** X9. An unknown day count stays unknown at any other time, and a known
    one moves with the local calendar: between two readings of the clock
    it grows by the number of days between their dates, so it never
    decreases as the clock advances. *)
Theorem days_since_follows_calendar now now' date_str :
  (days_since now date_str = Ok None -> days_since now' date_str = Ok None) /\
  (forall d, days_since now date_str = Ok (Some d) ->
             exists d', days_since now' date_str = Ok (Some d') /\
                        d' - d = date now' - date now /\
                        (now <= now' -> d <= d')).
Proof.
  assert (Hmono : now <= now' -> date now <= date now').
  { intros Hle. unfold date, us_per_day. apply Z.div_le_mono; lia. }
  destruct date_str as [[|c s]|]; simpl; try (split; [reflexivity|discriminate]).
  unfold try_except.
  destruct (fromisoformat _) as [parsed|e]; simpl; [|split; [reflexivity|discriminate]].
  destruct (astimezone_LOCAL parsed) as [dt|e]; simpl; [|split; [reflexivity|discriminate]].
  split; [discriminate|].
  intros d [= <-]. eexists. split; [reflexivity|]. split; [lia|].
  intros Hle. specialize (Hmono Hle). lia.
Qed.

Lemma replace_Z_again s :
  Py.replace_char "Z" "+00:00" (Py.replace_char "Z" "+00:00" s)
  = Py.replace_char "Z" "+00:00" s.
Proof.
  induction s as [|c s IH]; [reflexivity|].
  simpl. destruct (Ascii.eqb c "Z") eqn:Hc.
  - exact (f_equal (String.append "+00:00") IH).
  - simpl. rewrite Hc, IH. reflexivity.
Qed.

(** X14. A date written with the UTC marker [Z] and the same text with
    [+00:00] in its place give the same day count, at any clock reading:
    every [Z] of the string is replaced before it is parsed. *)
Theorem days_since_utc_marker now s :
  days_since now (Some (Py.replace_char "Z" "+00:00" s)) = days_since now (Some s).
Proof.
  destruct s as [|c s]; [reflexivity|].
  pose proof (replace_Z_again (String c s)) as Hagain.
  assert (Hne : exists c' r', Py.replace_char "Z" "+00:00" (String c s) = String c' r').
  { simpl. destruct (Ascii.eqb c "Z"); eexists _, _; reflexivity. }
  destruct Hne as (c' & r' & Hr). rewrite Hr in Hagain |- *.
  unfold days_since. rewrite Hagain, Hr. reflexivity.
Qed.


Lemma rain_loop_raises_overflow now end_ l :
  forall total e, rain_loop now end_ l total = Raise e -> e = OverflowError.
Proof.
  induction l as [|it l IH]; intros total e Hr; [discriminate|].
  simpl in Hr. unfold rain_step in Hr.
  destruct (local_time (time it)) as [t|e'] eqn:Ht; simpl in Hr.
  - apply (IH _ _ Hr).
  - injection Hr as <-. apply (local_time_raises _ _ Ht).
Qed.

Lemma precip_sum_raises_overflow now forecast hours e :
  precip_sum_next_hours now forecast hours = Raise e -> e = OverflowError.
Proof.
  unfold precip_sum_next_hours.
  destruct (window_end now hours) as [end_|e'] eqn:He; simpl.
  - apply rain_loop_raises_overflow.
  - intros [= <-]. apply (window_end_raises _ _ _ He).
Qed.


(** X11. Running the guard again on what it returned, at the same clock
    readings, changes nothing more: two runs in a row give what one run
    gives, the heap and a raised exception included. *)
Theorem guard_twice now1 now2 req res h :
  bind (consistency_guard now1 now2 req res)
       (fun r => consistency_guard now1 now2 req r) h
  = consistency_guard now1 now2 req res h.
Proof.
  unfold bind at 1.
  destruct (consistency_guard now1 now2 req res h) as [[r|e] h'] eqn:Hrun;
    [|reflexivity].
  revert Hrun. unfold consistency_guard, bind, lift.
  destruct (guard_facts now1 now2 req) as [f|e]; [|discriminate].
  destruct (hot f && dry f && (1 <=? dsl f) && negb (soon_rain f)) eqn:Hfire.
  2:{ unfold ret. intros [= <- <-]. reflexivity. }
  unfold get_zalevat. destruct (h !! res) as [cand|] eqn:Hh; [|discriminate].
  destruct (zalevat cand) eqn:Hz; simpl.
  { unfold ret. intros [= <- <-]. rewrite Hh, Hz. reflexivity. }
  unfold set_zalevat. rewrite Hh.
  destruct (guard_text f) as [txt|e]; [|discriminate].
  unfold set_oduvodneni. rewrite lookup_insert_eq. simpl.
  rewrite insert_insert_eq. unfold ret. intros [= <- <-].
  rewrite lookup_insert_eq. reflexivity.
Qed.

Lemma int_of_float_raises_le_40 (x : float) e :
  Py.le x 40%float = true -> Py.int_of_float x = Raise e ->
  x = neg_infinity /\ e = OverflowError.
Proof.
  unfold Py.le, Py.int_of_float. rewrite leb_spec.
  change (Prim2SF 40) with (S754_finite false 5629499534213120 (-47)).
  intros Hle Hraise.
  destruct (Prim2SF x) as [s|s| |s m e'] eqn:E; try discriminate.
  destruct s; [|discriminate]. split; [|congruence].
  apply Prim2SF_inj. rewrite E. reflexivity.
Qed.

(** X12. The guard raises in exactly two cases, each time with
    [OverflowError].  Either the rain of the next 12 hours cannot be
    summed, and the heap is as before; or the override fires and the
    humidity is minus infinity, and the candidate is left half updated:
    its decision already says water while its justification is still the
    old one. *)
Theorem guard_raises_iff now1 now2 req res h cand e h' :
  h !! res = Some cand ->
  consistency_guard now1 now2 req res h = (Raise e, h') <->
  e = OverflowError /\
  ((precip_sum_next_hours now2 (weather_forecast req) 12 = Raise OverflowError /\
    h' = h) \/
   (exists f,
       guard_facts now1 now2 req = Ok f /\
       fires f = true /\ zalevat cand = false /\
       humidity_pct (weather_now req) = Some neg_infinity /\
       h' = <[res := {| zalevat := true; oduvodneni := oduvodneni cand |}]> h)).
Proof.
  intros Hh.
  destruct (precip_sum_next_hours now2 (weather_forecast req) 12) as [rain|e0] eqn:Hsum.
  2:{ pose proof (precip_sum_raises_overflow _ _ _ _ Hsum) as ->.
      pose proof (guard_facts_raises now1 now2 req _ Hsum) as Hf.
      rewrite (guard_stops _ _ _ res h _ Hf). split.
      - intros [= <- <-]. split; [reflexivity|]. left. split; reflexivity.
      - intros [-> [[_ ->] | (f & Hf' & _)]]; [reflexivity|congruence]. }
  destruct (guard_facts_value now1 now2 req rain Hsum) as (d & _ & Hf).
  set (f := {| dsl := Py.or_int d 999; temp := temp_c (weather_now req);
               rh := match humidity_pct (weather_now req) with
                     | Some v => v
                     | None => 100%float
                     end;
               rain12 := rain |}) in Hf.
  assert (Hrh : rh f = match humidity_pct (weather_now req) with
                       | Some v => v
                       | None => 100%float
                       end) by reflexivity.
  assert (Hback : forall g, guard_facts now1 now2 req = Ok g -> g = f) by congruence.
  clearbody f.
  destruct (fires f) eqn:Hfire.
  2:{ rewrite (guard_idle _ _ _ res h _ Hf Hfire). split; [discriminate|].
      intros [_ [[Hc _] | (g & Hg & Hc & _)]]; [discriminate|].
      rewrite (Hback g Hg) in Hc. congruence. }
  destruct (zalevat cand) eqn:Hz.
  { rewrite (guard_keeps_water _ _ _ res h _ cand Hf Hh Hz). split; [discriminate|].
    intros [_ [[Hc _] | (g & _ & _ & Hc & _)]]; discriminate. }
  assert (Hdry : Py.le (rh f) 40%float = true).
  { unfold fires in Hfire. apply andb_true_iff in Hfire as [Hfire _].
    apply andb_true_iff in Hfire as [Hfire _].
    apply andb_true_iff in Hfire as [_ Hdry]. exact Hdry. }
  destruct (guard_text f) as [txt|e0] eqn:Htxt.
  - rewrite (guard_overrides _ _ _ res h _ cand txt Hf Hfire Hh Hz Htxt).
    split; [discriminate|].
    intros [_ [[Hc _] | (g & _ & _ & _ & Hinf & _)]]; [discriminate|].
    rewrite Hinf in Hrh. unfold guard_text in Htxt. rewrite Hrh in Htxt.
    vm_compute in Htxt. discriminate.
  - rewrite (guard_half_done _ _ _ res h _ cand e0 Hf Hfire Hh Hz Htxt).
    unfold guard_text in Htxt.
    destruct (Py.int_of_float (rh f)) as [irh|e1] eqn:Hint; [discriminate|].
    simpl in Htxt. injection Htxt as ->.
    destruct (int_of_float_raises_le_40 _ _ Hdry Hint) as [Hinf ->].
    split.
    + intros [= <- <-]. split; [reflexivity|]. right. exists f.
      repeat split; try assumption.
      rewrite Hinf in Hrh.
      destruct (humidity_pct (weather_now req)) as [v|]; [congruence|].
      apply (f_equal Prim2SF) in Hrh. vm_compute in Hrh. discriminate.
    + intros [-> [[Hc _] | (g & _ & _ & _ & _ & ->)]]; [discriminate|reflexivity].
Qed.

End Deriver.

(** ** More on the reply *)

Section ReplyFields.

Context `{V : Validation}.

(** X13. Keys of the reply other than the two fields are ignored: adding
    or overwriting one changes neither the outcome of the validation nor
    the response it builds. *)
Theorem DecisionResponse_init_extra_key kw k v :
  k <> "zalevat" -> k <> "oduvodneni" ->
  DecisionResponse_init (JObj (<[k := v]> kw)) = DecisionResponse_init (JObj kw).
Proof.
  intros Hz Ho. simpl.
  rewrite !lookup_insert_ne by assumption. reflexivity.
Qed.

End ReplyFields.

(** * Further worked examples *)

Module MoreExamples.

Import Summer.

#[local] Existing Instance Summer.runtime.
#[local] Existing Instance Plain.rendering.
#[local] Existing Instance Plain.comparison.
#[local] Existing Instance Replies.validation.

Local Open Scope positive_scope.

(** The two ends of the range of [datetime], and of [timedelta]. *)
Example datetime_range :
  datetime_min = at_ 1 1 1 0 0 /\
  datetime_max = (at_ 9999 12 31 23 59 + 59999999)%Z /\
  astimezone_LOCAL (Aware (at_ 9999 12 31 23 30)) = Raise OverflowError /\
  astimezone_LOCAL (Aware (at_ 9999 12 31 21 30)) = Ok (at_ 9999 12 31 23 30) /\
  timedelta_hours 23999999999 = Ok (23999999999 * us_per_hour)%Z /\
  timedelta_hours 24000000000 = Raise OverflowError /\
  timedelta_hours (-23999999999) = Raise OverflowError /\
  window_end morning (-20000000) = Raise OverflowError.
Proof. repeat split. Qed.

(** The messages of a request, logged without the image. *)
Example logged_prompt :
  (let* m := build_messages morning morning morning
               (request (Some "2024-07-12") hot_dry [noon 0.5%float]) in
   Ok (logged_messages m false))
  = Ok (PList
          [ PDict [("role", PStr "system");
                   ("content", PStr (system_text "2024-07-15"))];
            PDict [("role", PStr "user");
                   ("content",
                    PList [ PDict [("type", PStr "text");
                                   ("text",
                                    PStr ("FAKTA: {facts}" +:+ newline +:+ newline +:+
                                          "Poslední zálivka (ISO): 2024-07-12 (neznámý ml)"
                                          +:+ newline +:+ newline +:+
                                          "Kontext rostliny: neznámý" +:+ newline +:+ newline +:+
                                          "Aktuální počasí: {weather}" +:+ newline +:+ newline +:+
                                          "Předpověď (prvních 12): [1 items]"))];
                            PDict [("type", PStr "image_url");
                                   ("image_url",
                                    PDict [("url", PStr "<image-data-url-redacted>")])] ])] ]).
Proof. reflexivity. Qed.

(** X4, at a concrete input: a system message alone. *)
Lemma scrub_without_image_item_witness :
  scrub false (PList [PDict [("role", PStr "system"); ("content", PStr "Dnes je")]])
  = PList [PDict [("role", PStr "system"); ("content", PStr "Dnes je")]].
Proof. apply scrub_without_image_item. reflexivity. Defined.

(** X6, at a concrete input: twelve slots at noon, then one a week
    later. *)
Lemma build_messages_late_items_witness :
  build_messages morning morning morning
    (with_items (Plain.twelve ++ [Plain.next_week])
       (request (Some "2024-07-12") hot_dry Plain.twelve))
  = build_messages morning morning morning
      (request (Some "2024-07-12") hot_dry Plain.twelve).
Proof.
  apply (build_messages_late_items morning morning morning
           (request (Some "2024-07-12") hot_dry Plain.twelve) [Plain.next_week]).
  - simpl. lia.
  - intros it [<- | []]. split; [eexists; reflexivity|]. left. reflexivity.
Defined.

(** The history of the examples: the second entry is selected. *)
Example last_watering_of_history :
  last_watering (JList Plain.history) = Ok (JStr "2024-07-12", JInt 150).
Proof. reflexivity. Qed.

Example last_watering_no_history :
  last_watering (JList []) = Ok (JNull, JNull).
Proof. reflexivity. Qed.

(** X7, at a concrete input: the history of the examples. *)
Lemma last_watering_latest_witness :
  exists i e s d a,
    last_watering (JList Plain.history) = Ok (d, a) /\
    dict_get e "date" JNull = Ok d /\
    dict_get e "amount_ml" JNull = Ok a /\
    Plain.history !! i = Some e /\ Plain.history_keys !! i = Some s /\
    (forall j s', Plain.history_keys !! j = Some s' -> String.leb s' s = true) /\
    (forall j s', (j < i)%nat -> Plain.history_keys !! j = Some s' -> String.ltb s' s = true).
Proof.
  apply (last_watering_latest Plain.history Plain.history_keys); [discriminate|].
  repeat constructor; eexists; (split; [reflexivity|]); auto.
Defined.


(** X12, at a concrete input: a humidity of minus infinity on a hot day,
    three days after watering. *)
Lemma guard_raises_iff_witness :
  consistency_guard morning morning
    (request (Some "2024-07-12") (weather 32 (Some neg_infinity)) []) 1 heap1
  = (Raise OverflowError,
     <[1 := {| zalevat := true; oduvodneni := oduvodneni looks_fine |}]> heap1).
Proof.
  apply (guard_raises_iff morning morning
           (request (Some "2024-07-12") (weather 32 (Some neg_infinity)) []) 1 heap1
           looks_fine); [reflexivity|].
  split; [reflexivity|]. right.
  exists {| dsl := 3; temp := 32; rh := neg_infinity; rain12 := 0 |}.
  repeat split.
Defined.

(** X13, at a concrete input: a reply that also names a model. *)
Lemma DecisionResponse_init_extra_key_witness :
  DecisionResponse_init
    (JObj (<["model" := JStr "gpt-4o-mini"]>
             {[ "zalevat" := JBool true; "oduvodneni" := JStr "sucho" ]}))
  = DecisionResponse_init
      (JObj {[ "zalevat" := JBool true; "oduvodneni" := JStr "sucho" ]}).
Proof. apply DecisionResponse_init_extra_key; discriminate. Defined.

End MoreExamples.
